(** * Notice API: validation, sanitisation, pagination and upload checks

    A shallow embedding of [notice-api/server.js].  Each handler of the
    Express application is a function from the request and the store to
    the response envelope and the new store.  The store keeps the rows of
    the [notice] table and the list of statements sent to it, so that
    "no storage call" is the statement that the store is unchanged.

    Conventions of the embedding:
    - a string is a sequence of code units below 256; [String.length] is
      the [length] property;
    - a number is [NaN], an infinity, or a finite value of binary64 kept
      as the rational it is: a literal and the result of an operation are
      rounded to the nearest such value, ties to even, and overflow to an
      infinity; the sign of zero is not kept;
    - a value received in a JSON body is a [value];
    - the filter of the [xss] package is not part of the repository: the
      definitions take it as a parameter and the general theorems hold for
      every filter. *)

From Stdlib Require Import String Ascii List ZArith QArith Qround Bool Lia DecimalString.
From Stdlib Require Import Permutation Sorted.
From Stdlib Require Import DecimalPos DecimalZ.
Import ListNotations.

Local Open Scope string_scope.
Local Open Scope Z_scope.

(* ================================================================== *)
(** * Strings *)

Module Str.

Definition code (c : ascii) : Z := Z.of_N (N_of_ascii c).

(** White space of [String.prototype.trim] and of the numeric-string
    grammar, among the code units below 256: TAB, LF, VT, FF, CR, SP,
    NBSP. *)
Definition is_space (c : ascii) : bool :=
  let n := code c in
  ((9 <=? n) && (n <=? 13)) || (n =? 32) || (n =? 160).

Fixpoint trimStart (s : string) : string :=
  match s with
  | EmptyString => EmptyString
  | String c s' => if is_space c then trimStart s' else s
  end.

Fixpoint trimEnd (s : string) : string :=
  match s with
  | EmptyString => EmptyString
  | String c s' =>
      match trimEnd s' with
      | EmptyString => if is_space c then EmptyString else String c EmptyString
      | t => String c t
      end
  end.

Definition trim (s : string) : string := trimEnd (trimStart s).

(** [String.prototype.toLowerCase] on code units below 256: A-Z and the
    Latin-1 capitals (U+00C0-U+00DE without the multiplication sign). *)
Definition lower_char (c : ascii) : ascii :=
  let n := code c in
  if ((65 <=? n) && (n <=? 90))
     || ((192 <=? n) && (n <=? 222) && negb (n =? 215))
  then ascii_of_N (Z.to_N (n + 32)) else c.

Fixpoint toLowerCase (s : string) : string :=
  match s with
  | EmptyString => EmptyString
  | String c s' => String (lower_char c) (toLowerCase s')
  end.

(** [s.includes(pat)]: [pat] occurs in [s] at some position. *)
Fixpoint includes (pat s : string) : bool :=
  prefix pat s ||
  match s with
  | EmptyString => false
  | String _ s' => includes pat s'
  end.

Definition is_empty (s : string) : bool :=
  match s with EmptyString => true | _ => false end.

Definition len (s : string) : Z := Z.of_nat (String.length s).

End Str.

(* ================================================================== *)
(** * Numbers *)

Inductive number : Type :=
| NaN
| PosInf
| NegInf
| Fin (q : Q).

Module Num.

Definition of_Z (z : Z) : number := Fin (inject_Z z).

Definition Qlt_bool (x y : Q) : bool := negb (Qle_bool y x).

(** The abstract relational comparison [a < b]; [false] stands for both
    [false] and [undefined], which every operator below treats alike. *)
Definition lt (a b : number) : bool :=
  match a, b with
  | NaN, _ | _, NaN => false
  | PosInf, _ => false
  | _, NegInf => false
  | NegInf, _ => true
  | _, PosInf => true
  | Fin x, Fin y => Qlt_bool x y
  end.

Definition is_nan (a : number) : bool :=
  match a with NaN => true | _ => false end.

(** [a > b] *)
Definition gt (a b : number) : bool := lt b a.

(** [a <= b]: not [b < a], and [false] when either side is [NaN]. *)
Definition le (a b : number) : bool :=
  negb (is_nan a) && negb (is_nan b) && negb (lt b a).

(** Truthiness of a number: neither [NaN] nor zero. *)
Definition truthy (a : number) : bool :=
  match a with
  | NaN => false
  | Fin q => negb (Qeq_bool q 0)
  | _ => true
  end.

Definition sign (q : Q) : Z := Z.sgn (Qnum q).

(** [2^e] *)
Definition pow2 (e : Z) : Q :=
  if 0 <=? e then inject_Z (2 ^ e) else 1 # Z.to_pos (2 ^ (- e)).

(** The binary exponent of the positive rational [n/d]: the [e] with
    [2^e <= n/d < 2^(e+1)], which is the difference of the two binary
    logarithms or one less. *)
Definition exponent (n d : positive) : Z :=
  let e := Z.log2 (Zpos n) - Z.log2 (Zpos d) in
  if Qle_bool (pow2 e) (Zpos n # d) then e else e - 1.

(** The nearest integer, a tie going to the even one. *)
Definition nearest_even (q : Q) : Z :=
  let f := Qfloor q in
  match Qcompare (q - inject_Z f) (1 # 2) with
  | Lt => f
  | Gt => f + 1
  | Eq => if Z.even f then f else f + 1
  end.

(** The value of binary64 nearest to the positive rational [n/d]: 53
    bits at the exponent of the rational, the exponent being at least
    [-1022] (below it the values are subnormal); [None] when the rounded
    value reaches [2^1024]. *)
Definition round_pos (n d : positive) : option Q :=
  let e := Z.max (exponent n d) (-1022) in
  let k := nearest_even ((Zpos n # d) * pow2 (52 - e)) in
  let v := (inject_Z k * pow2 (e - 52))%Q in
  if Qle_bool (pow2 1024) v then None else Some (Qred v).

(** Rounding of a rational to a number. *)
Definition round (q : Q) : number :=
  let r := Qred q in
  match Qnum r with
  | Z0 => Fin 0
  | Zpos n =>
      match round_pos n (Qden r) with
      | Some v => Fin v
      | None => PosInf
      end
  | Zneg n =>
      match round_pos n (Qden r) with
      | Some v => Fin (Qred (- v))
      | None => NegInf
      end
  end.

Definition sub (a b : number) : number :=
  match a, b with
  | NaN, _ | _, NaN => NaN
  | PosInf, PosInf | NegInf, NegInf => NaN
  | PosInf, _ | _, NegInf => PosInf
  | NegInf, _ | _, PosInf => NegInf
  | Fin x, Fin y => round (x - y)
  end.

Definition inf_of_sign (s : Z) : number :=
  match s with
  | Z0 => NaN
  | Zpos _ => PosInf
  | Zneg _ => NegInf
  end.

Definition mul (a b : number) : number :=
  match a, b with
  | NaN, _ | _, NaN => NaN
  | PosInf, PosInf | NegInf, NegInf => PosInf
  | PosInf, NegInf | NegInf, PosInf => NegInf
  | PosInf, Fin y | Fin y, PosInf => inf_of_sign (sign y)
  | NegInf, Fin y | Fin y, NegInf => inf_of_sign (- sign y)
  | Fin x, Fin y => round (x * y)
  end.

(** The number is the integer [z]. *)
Definition is_Z (a : number) (z : Z) : bool :=
  match a with
  | Fin q => Qeq_bool q (inject_Z z)
  | _ => false
  end.

(** The integer a finite integral number stands for. *)
Definition to_Z (a : number) : option Z :=
  match a with
  | Fin q => if Qeq_bool q (inject_Z (Qfloor q)) then Some (Qfloor q) else None
  | _ => None
  end.

Definition finite (a : number) : bool :=
  match a with Fin _ => true | _ => false end.

(** The integers from [-2^53] to [2^53] are values of binary64, and no
    two of them share one. *)
Definition max_exact : Z := 9007199254740992.

End Num.

(** ** Numeric strings: [Number(s)] on a string *)

Module NumStr.

Definition hex_digit_of (c : ascii) : option Z :=
  let n := Str.code c in
  if (48 <=? n) && (n <=? 57) then Some (n - 48)
  else if (97 <=? n) && (n <=? 102) then Some (n - 87)
  else if (65 <=? n) && (n <=? 70) then Some (n - 55)
  else None.

Definition below (base : Z) (d : option Z) : option Z :=
  match d with
  | Some v => if v <? base then Some v else None
  | None => None
  end.

(** Reads the longest run of digits of the base: the value read, how
    many digits, and what follows. *)
Fixpoint read_digits (base : Z) (s : string) (acc : Z) (count : Z)
  : Z * Z * string :=
  match s with
  | EmptyString => (acc, count, s)
  | String c s' =>
      match below base (hex_digit_of c) with
      | Some d => read_digits base s' (acc * base + d) (count + 1)
      | None => (acc, count, s)
      end
  end.

(** [0x], [0o] and [0b] literals: unsigned, at least one digit, nothing
    after the digits. *)
Definition radix_literal (s : string) : option Z :=
  match s with
  | String "0" (String r ds) =>
      let base :=
        if Ascii.eqb r "x" || Ascii.eqb r "X" then 16
        else if Ascii.eqb r "o" || Ascii.eqb r "O" then 8
        else if Ascii.eqb r "b" || Ascii.eqb r "B" then 2
        else 0 in
      if base =? 0 then None
      else
        let '(v, n, rest) := read_digits base ds 0 0 in
        if (0 <? n) && Str.is_empty rest then Some v else None
  | _ => None
  end.

(** The exponent part: empty, or [e]/[E], an optional sign and at least
    one digit, up to the end of the string. *)
Definition exponent_part (s : string) : option Z :=
  match s with
  | EmptyString => Some 0
  | String c s' =>
      if Ascii.eqb c "e" || Ascii.eqb c "E" then
        let '(neg, ds) :=
          match s' with
          | String "+" t => (false, t)
          | String "-" t => (true, t)
          | _ => (false, s')
          end in
        let '(v, n, rest) := read_digits 10 ds 0 0 in
        if (0 <? n) && Str.is_empty rest
        then Some (if neg then - v else v) else None
      else None
  end.

(** [m * 10^e], the mathematical value of a literal. *)
Definition scale10 (m e : Z) : Q :=
  if 0 <=? e then inject_Z (m * 10 ^ e)
  else Qred (Qmake m (Z.to_pos (10 ^ (- e)))).

(** An unsigned decimal literal: digits, an optional fraction, an
    optional exponent; at least one digit before the exponent. *)
Definition decimal_literal (s : string) : option Q :=
  let '(ip, ni, r1) := read_digits 10 s 0 0 in
  let '(fp, nf, r2) :=
    match r1 with
    | String "." r => read_digits 10 r ip 0
    | _ => (ip, 0, r1)
    end in
  if ni + nf =? 0 then None
  else
    match exponent_part r2 with
    | Some e => Some (scale10 fp (e - nf))
    | None => None
    end.

Definition negate (neg : bool) (n : number) : number :=
  match n with
  | Fin q => Fin (if neg then Qred (- q) else q)
  | PosInf => if neg then NegInf else PosInf
  | NegInf => if neg then PosInf else NegInf
  | NaN => NaN
  end.

Definition unsigned_literal (s : string) : number :=
  if String.eqb s "Infinity" then PosInf
  else match decimal_literal s with
       | Some q => Num.round q
       | None => NaN
       end.

(** [Number(s)]: white space is trimmed; the empty string is [0]; the
    mathematical value of the literal is rounded. *)
Definition StringToNumber (s : string) : number :=
  let t := Str.trim s in
  if Str.is_empty t then Num.of_Z 0
  else
    match radix_literal t with
    | Some v => Num.round (inject_Z v)
    | None =>
        match t with
        | String "+" u => unsigned_literal u
        | String "-" u => negate true (unsigned_literal u)
        | _ => unsigned_literal t
        end
    end.

End NumStr.

(* ================================================================== *)
(** * Values and coercions *)

(** The outcome of an expression that may throw (a [TypeError] of a
    coercion); a handler turns a throw into the 500 response. *)
Inductive result (A : Type) : Type :=
| Ok (a : A)
| Throw.
Arguments Ok {A} a.
Arguments Throw {A}.

Definition bind {A B : Type} (r : result A) (k : A -> result B) : result B :=
  match r with
  | Ok a => k a
  | Throw => Throw
  end.

Declare Scope result_scope.
Delimit Scope result_scope with result.
Notation "x <- r ;; k" := (bind r (fun x => k))
  (at level 61, r at next level, right associativity) : result_scope.

Fixpoint mapM {A B : Type} (f : A -> result B) (l : list A) : result (list B) :=
  match l with
  | [] => Ok []
  | x :: l' =>
      (y <- f x ;;
       ys <- mapM f l' ;;
       Ok (y :: ys))%result
  end.

(** A value of a parsed JSON body: an object is the list of its own
    properties, the first binding of a key being the property. *)
#[warnings="-register-all"]
Inductive value : Type :=
| VUndefined
| VNull
| VBool (b : bool)
| VNum (n : number)
| VStr (s : string)
| VArr (items : list value)
| VObj (props : list (string * value)).

Module Js.

Fixpoint lookup (k : string) (props : list (string * value)) : option value :=
  match props with
  | [] => None
  | (k', v) :: rest => if String.eqb k k' then Some v else lookup k rest
  end.

Definition has_key (k : string) (props : list (string * value)) : bool :=
  match lookup k props with Some _ => true | None => false end.

(** Truthiness: [!v] is [negb (truthy v)]. *)
Definition truthy (v : value) : bool :=
  match v with
  | VUndefined | VNull => false
  | VBool b => b
  | VNum n => Num.truthy n
  | VStr s => negb (Str.is_empty s)
  | VArr _ | VObj _ => true
  end.

(** Conversion of an object to a primitive throws when an own
    [toString] entry (never callable in parsed JSON) hides the inherited
    method; an array joins the conversions of its items. *)
Fixpoint throws (v : value) : bool :=
  match v with
  | VObj props => has_key "toString" props
  | VArr items => existsb throws items
  | _ => false
  end.

(** [Number(v)].  An array is converted through its text, the items
    joined by commas: no item gives [0], two or more give a text with a
    comma, which is not numeric; one item gives the number of its own
    text (for a number item the number itself, its text reading back as
    the same number). *)
Fixpoint ToNumber (v : value) : result number :=
  match v with
  | VUndefined => Ok NaN
  | VNull => Ok (Num.of_Z 0)
  | VBool b => Ok (Num.of_Z (if b then 1 else 0))
  | VNum n => Ok n
  | VStr s => Ok (NumStr.StringToNumber s)
  | VObj props => if has_key "toString" props then Throw else Ok NaN
  | VArr items =>
      if existsb throws items then Throw
      else
        match items with
        | [] => Ok (Num.of_Z 0)
        | [x] =>
            match x with
            | VUndefined | VNull => Ok (Num.of_Z 0)
            | VBool _ => Ok NaN
            | _ => ToNumber x
            end
        | _ => Ok NaN
        end
  end.

(** [v.length]: reading a property of [undefined] or [null] throws. *)
Definition get_length (v : value) : result value :=
  match v with
  | VUndefined | VNull => Throw
  | VStr s => Ok (VNum (Num.of_Z (Str.len s)))
  | VArr items => Ok (VNum (Num.of_Z (Z.of_nat (List.length items))))
  | VObj props =>
      match lookup "length" props with
      | Some l => Ok l
      | None => Ok VUndefined
      end
  | VBool _ | VNum _ => Ok VUndefined
  end.

(** [v > k] for a number [k]. *)
Definition gt_number (v : value) (k : Z) : result bool :=
  (n <- ToNumber v ;; Ok (Num.gt n (Num.of_Z k)))%result.

Definition is_string (v : value) : bool :=
  match v with VStr _ => true | _ => false end.

End Js.

(* ================================================================== *)
(** * Response envelope *)

Inductive notice_status : Type := draft | published.

Definition status_name (s : notice_status) : string :=
  match s with
  | draft => "draft"
  | published => "published"
  end.

(** A row of the table [notice].  The [title] and [content] of a row are
    strings, kept as values so that a row is compared with what a request
    carried. *)
Record Notice : Type := mkNotice {
  row_id : Z;
  row_title : value;
  row_content : value;
  row_content_delta : option string;
  row_status : notice_status;
  row_publish_time : option Z;
  row_created_at : Z;
  row_updated_at : Z
}.

(** The columns the list statement selects: all but [content_delta]. *)
Record Summary : Type := mkSummary {
  sum_id : Z;
  sum_title : value;
  sum_content : value;
  sum_status : notice_status;
  sum_publish_time : option Z;
  sum_created_at : Z;
  sum_updated_at : Z
}.

Definition summary (r : Notice) : Summary :=
  mkSummary (row_id r) (row_title r) (row_content r) (row_status r)
            (row_publish_time r) (row_created_at r) (row_updated_at r).

Inductive payload : Type :=
| NoData
| DataTrue
| DataId (insertId : Z)
| DataNotice (r : Notice)
| DataList (list_ : list Summary) (total : Z) (page size : number)
| DataUrl (url : string).

Record response : Type := mkResponse {
  http_status : Z;
  code : Z;
  msg : string;
  data : payload
}.

Definition ok (d : payload) : response := mkResponse 200 0 "ok" d.
Definition bad (m : string) : response := mkResponse 400 1 m NoData.
(** The last middleware, reached through [next(e)]. *)
Definition server_error : response := mkResponse 500 1 "server error" NoData.

(* ================================================================== *)
(** * The storage collaborator: table [notice] behind [db.query] *)

(** The statements of server.js, with their parameters. *)
Inductive query : Type :=
| SelectPage (where_status : option string) (limit offset : number)
| SelectCount (where_status : option string)
| SelectById (id : number)
| InsertNotice (title content : value) (content_delta : option string)
| UpdateNotice (title content : value) (content_delta : option string) (id : number)
| PublishNotice (id : number)
| DeleteNotice (id : number)
| DeleteIn (ids : list number).

Inductive reply : Type :=
| Summaries (l : list Summary)
| Count (total : Z)
| Rows (l : list Notice)
| Inserted (insertId : Z)
| Affected (n : Z).

(** The table, the next generated id, and every statement sent so far. *)
Record Store : Type := mkStore {
  rows : list Notice;
  next_id : Z;
  log : list query
}.

Module Db.

(** [WHERE status=?], or no condition. *)
Definition where_status (w : option string) (r : Notice) : bool :=
  match w with
  | None => true
  | Some s => String.eqb (status_name (row_status r)) s
  end.

(** [WHERE id=?] *)
Definition where_id (n : number) (r : Notice) : bool := Num.is_Z n (row_id r).

(** [WHERE id IN (?,...,?)] *)
Definition where_id_in (ns : list number) (r : Notice) : bool :=
  existsb (fun n => Num.is_Z n (row_id r)) ns.

(** [ORDER BY created_at DESC]: an insertion sort.  The statement names
    no second key: the engine may return rows created at the same time in
    any order, and the model returns them in the order of the table.  The
    properties below that depend on the order of such rows assume that no
    two rows were created at the same time. *)
Fixpoint insert_desc (x : Notice) (l : list Notice) : list Notice :=
  match l with
  | [] => [x]
  | y :: l' =>
      if row_created_at y <=? row_created_at x then x :: l
      else y :: insert_desc x l'
  end.

Definition order_by_created_desc (l : list Notice) : list Notice :=
  fold_right insert_desc [] l.

(** [LIMIT] and [OFFSET] take a natural number, at most
    [18446744073709551615].  (Above [2^53] the decimal text the driver
    writes for a number may differ from the number in its last digits;
    the model takes the number.) *)
Definition max_row_count : Z := 18446744073709551615.

Definition row_count (n : number) : option nat :=
  match Num.to_Z n with
  | Some z =>
      if (0 <=? z) && (z <=? max_row_count) then Some (Z.to_nat z) else None
  | None => None
  end.

(** A text column takes the parameter when it is a string. *)
Definition is_text (v : value) : bool := Js.is_string v.

Definition count (f : Notice -> bool) (l : list Notice) : Z :=
  Z.of_nat (List.length (filter f l)).

(** Modelled from the spec: the declaration of the table [notice] is not
    in the repository.  The spec has [id] generated by storage on
    creation, [publish_time] set only by publishing, and [created_at] and
    [updated_at] managed by storage: an inserted row gets the next id, no
    publish time, and the time of the engine in both timestamps. *)
Definition new_row (nid now : Z) (t c : value) (d : option string)
  (s : notice_status) : Notice :=
  mkNotice nid t c d s None now now.

(** Modelled from the spec: [updated_at] is managed by storage, which is
    not in the repository; a row that an UPDATE reaches gets the time of
    the engine. *)
Definition touch (now : Z) (r : Notice) : Notice :=
  mkNotice (row_id r) (row_title r) (row_content r) (row_content_delta r)
           (row_status r) (row_publish_time r) (row_created_at r) now.

(** [SET title=?, content=?, content_delta=?] *)
Definition set_text (t c : value) (d : option string) (r : Notice) : Notice :=
  mkNotice (row_id r) t c d (row_status r) (row_publish_time r)
           (row_created_at r) (row_updated_at r).

(** [SET status='published', publish_time=NOW()] *)
Definition set_published (now : Z) (r : Notice) : Notice :=
  mkNotice (row_id r) (row_title r) (row_content r) (row_content_delta r)
           published (Some now) (row_created_at r) (row_updated_at r).

Definition update_where (f : Notice -> bool) (g : Notice -> Notice)
  (l : list Notice) : list Notice :=
  map (fun r => if f r then g r else r) l.

Definition delete_where (f : Notice -> bool) (l : list Notice) : list Notice :=
  filter (fun r => negb (f r)) l.

(** What a statement answers and how it changes the table, at the time
    [now] of the engine.

    The driver writes every parameter into the text of the statement.  A
    finite number is written as a numeric literal; [NaN] and the
    infinities are written as the words [NaN] and [Infinity], which the
    engine reads as names of columns that do not exist: such a statement
    is refused, and so is one whose [LIMIT] or [OFFSET] is not a natural
    number.  A refused statement changes nothing.  ([WHERE id=?] compares
    the number with the id; above [2^53] the text the driver writes for a
    number may differ from the number in its last digits, and the model
    takes the number.)

    Modelled from the spec: the declaration of the table is not in the
    repository; the spec has [title] and [content] as texts.  A string
    parameter is stored as it is.  For a parameter that is not a string
    the driver writes a literal (number, boolean), the list of the items
    (array) or assignments (object) into the statement, and what the
    engine makes of it depends on the declaration of the table; the model
    covers the statements whose title and content are strings and has the
    other ones refused.  Of a statement with such a parameter the
    properties below say that it is sent and, for an array of two items,
    which leaves the statement ill-formed, that it is refused. *)
Definition run (now : Z) (q : query) (t : list Notice) (nid : Z)
  : result reply * list Notice * Z :=
  match q with
  | SelectPage w limit offset =>
      match row_count limit, row_count offset with
      | Some l, Some o =>
          (Ok (Summaries
                 (map summary
                      (firstn l (skipn o (order_by_created_desc
                                            (filter (where_status w) t)))))),
           t, nid)
      | _, _ => (Throw, t, nid)
      end
  | SelectCount w => (Ok (Count (count (where_status w) t)), t, nid)
  | SelectById n =>
      if Num.finite n then (Ok (Rows (filter (where_id n) t)), t, nid)
      else (Throw, t, nid)
  | InsertNotice ti c d =>
      if is_text ti && is_text c
      then (Ok (Inserted nid),
            (t ++ [new_row nid now ti c d draft])%list,
            nid + 1)
      else (Throw, t, nid)
  | UpdateNotice ti c d n =>
      if is_text ti && is_text c && Num.finite n
      then (Ok (Affected (count (where_id n) t)),
            update_where (where_id n) (fun r => touch now (set_text ti c d r)) t,
            nid)
      else (Throw, t, nid)
  | PublishNotice n =>
      if Num.finite n
      then (Ok (Affected (count (where_id n) t)),
            update_where (where_id n) (fun r => touch now (set_published now r)) t,
            nid)
      else (Throw, t, nid)
  | DeleteNotice n =>
      if Num.finite n
      then (Ok (Affected (count (where_id n) t)), delete_where (where_id n) t, nid)
      else (Throw, t, nid)
  | DeleteIn ns =>
      if forallb Num.finite ns
      then (Ok (Affected (count (where_id_in ns) t)),
            delete_where (where_id_in ns) t, nid)
      else (Throw, t, nid)
  end.

(** [db.query(sql, params)]: the statement is recorded, then run. *)
Definition query (now : Z) (q : query) (st : Store) : result reply * Store :=
  let '(r, t, nid) := run now q (rows st) (next_id st) in
  (r, mkStore t nid (log st ++ [q])%list).

End Db.

(* ================================================================== *)
(** * Validation helpers and the notice handlers *)

(** The fields a create or update request reads from [req.body].
    [content_delta] is the text of the editor's delta (a JSON string, as
    server.js says) or absent, so that [String(...)] leaves it as it is. *)
Record Body : Type := mkBody {
  body_title : value;
  body_content : value;
  body_content_delta : option string
}.

Definition validateId (id : string) : option string :=
  let numId := NumStr.StringToNumber id in
  if negb (Num.truthy numId) || Num.le numId (Num.of_Z 0)
  then Some "Invalid ID" else None.

Definition validateTitle (title : value) : result (option string) :=
  if negb (Js.truthy title) then Ok (Some "Title is required")
  else
    (len <- Js.get_length title ;;
     long <- Js.gt_number len 255 ;;
     Ok (if long : bool then Some "Title is too long (max 255 characters)"
         else None))%result.

Definition validateContent (content : value) : result (option string) :=
  if negb (Js.truthy content) then Ok (Some "Content is required")
  else
    (len <- Js.get_length content ;;
     long <- Js.gt_number len 50000 ;;
     Ok (if long : bool then Some "Content is too long (max 50000 characters)"
         else None))%result.

(** [req.body.content_delta ? String(req.body.content_delta) : null] *)
Definition delta_param (d : option string) : option string :=
  match d with
  | Some s => if Str.is_empty s then None else Some s
  | None => None
  end.

(** [Number(req.query.p || d)] for a query parameter that is a string or
    absent. *)
Definition query_number (p : option string) (d : Z) : number :=
  match p with
  | Some s => if Str.is_empty s then Num.of_Z d else NumStr.StringToNumber s
  | None => Num.of_Z d
  end.

Section Handlers.

(** The filter of the [xss] package. *)
Variable xss : string -> string.

(** The time of the storage engine while the request is served. *)
Variable now : Z.

Definition sanitizeInput (input : value) : value :=
  match input with
  | VStr s => VStr (xss (Str.trim s))
  | _ => input
  end.

(** GET /api/notices *)
Definition list_notices (page_q size_q status_q : option string) (st : Store)
  : response * Store :=
  let page := query_number page_q 1 in
  let size := query_number size_q 10 in
  let status := Str.trim (match status_q with Some s => s | None => "" end) in
  if Num.le page (Num.of_Z 0) || Num.le size (Num.of_Z 0)
     || Num.gt size (Num.of_Z 100)
  then (bad "page/size invalid", st)
  else if negb (Str.is_empty status)
          && negb (existsb (String.eqb status) ["draft"; "published"])
  then (bad "invalid status", st)
  else
    let offset := Num.mul (Num.sub page (Num.of_Z 1)) size in
    let whereSql := if Str.is_empty status then None else Some status in
    match Db.query now (SelectPage whereSql size offset) st with
    | (Ok (Summaries l), st1) =>
        match Db.query now (SelectCount whereSql) st1 with
        | (Ok (Count total), st2) => (ok (DataList l total page size), st2)
        | (_, st2) => (server_error, st2)
        end
    | (_, st1) => (server_error, st1)
    end.

(** GET /api/notices/:id *)
Definition get_notice (id : string) (st : Store) : response * Store :=
  match validateId id with
  | Some validationError => (bad validationError, st)
  | None =>
      match Db.query now (SelectById (NumStr.StringToNumber id)) st with
      | (Ok (Rows []), st1) => (bad "not found", st1)
      | (Ok (Rows (r :: _)), st1) => (ok (DataNotice r), st1)
      | (_, st1) => (server_error, st1)
      end
  end.

(** POST /api/notices *)
Definition create_notice (body : Body) (st : Store) : response * Store :=
  let title := sanitizeInput (body_title body) in
  let content := sanitizeInput (body_content body) in
  let content_delta := delta_param (body_content_delta body) in
  match validateTitle title with
  | Throw => (server_error, st)
  | Ok (Some titleError) => (bad titleError, st)
  | Ok None =>
      match validateContent content with
      | Throw => (server_error, st)
      | Ok (Some contentError) => (bad contentError, st)
      | Ok None =>
          match Db.query now (InsertNotice title content content_delta) st with
          | (Ok (Inserted insertId), st1) => (ok (DataId insertId), st1)
          | (_, st1) => (server_error, st1)
          end
      end
  end.

(** PUT /api/notices/:id *)
Definition update_notice (id : string) (body : Body) (st : Store)
  : response * Store :=
  match validateId id with
  | Some validationError => (bad validationError, st)
  | None =>
      let title := sanitizeInput (body_title body) in
      let content := sanitizeInput (body_content body) in
      let content_delta := delta_param (body_content_delta body) in
      match validateTitle title with
      | Throw => (server_error, st)
      | Ok (Some titleError) => (bad titleError, st)
      | Ok None =>
          match validateContent content with
          | Throw => (server_error, st)
          | Ok (Some contentError) => (bad contentError, st)
          | Ok None =>
              match Db.query now
                      (UpdateNotice title content content_delta
                                    (NumStr.StringToNumber id)) st with
              | (Ok _, st1) => (ok DataTrue, st1)
              | (Throw, st1) => (server_error, st1)
              end
          end
      end
  end.

(** POST /api/notices/:id/publish *)
Definition publish_notice (id : string) (st : Store) : response * Store :=
  match validateId id with
  | Some validationError => (bad validationError, st)
  | None =>
      match Db.query now (PublishNotice (NumStr.StringToNumber id)) st with
      | (Ok _, st1) => (ok DataTrue, st1)
      | (Throw, st1) => (server_error, st1)
      end
  end.

(** DELETE /api/notices/:id *)
Definition delete_notice (id : string) (st : Store) : response * Store :=
  match validateId id with
  | Some validationError => (bad validationError, st)
  | None =>
      match Db.query now (DeleteNotice (NumStr.StringToNumber id)) st with
      | (Ok _, st1) => (ok DataTrue, st1)
      | (Throw, st1) => (server_error, st1)
      end
  end.

(** The ids kept by [ids.map(n => Number(n)).filter(n => n > 0)]. *)
Definition safe_ids (items : list value) : result (list number) :=
  (nums <- mapM Js.ToNumber items ;;
   Ok (filter (fun n => Num.gt n (Num.of_Z 0)) nums))%result.

(** POST /api/notices/batch_delete, on the field [ids] of the body *)
Definition batch_delete (ids_field : value) (st : Store) : response * Store :=
  let ids := if Js.truthy ids_field then ids_field else VArr [] in
  match ids with
  | VArr [] => (bad "ids required", st)
  | VArr items =>
      match safe_ids items with
      | Throw => (server_error, st)
      | Ok safeIds =>
          if (List.length safeIds =? 0)%nat then (bad "ids invalid", st)
          else if (100 <? List.length safeIds)%nat
          then (bad "Too many IDs in batch operation (max 100)", st)
          else
            match Db.query now (DeleteIn safeIds) st with
            | (Ok _, st1) => (ok DataTrue, st1)
            | (Throw, st1) => (server_error, st1)
            end
      end
  | _ => (bad "ids required", st)
  end.

(** A request to the notice routes. *)
Inductive request : Type :=
| GetList (page size status : option string)
| GetOne (id : string)
| Create (body : Body)
| Update (id : string) (body : Body)
| Publish (id : string)
| DeleteOne (id : string)
| BatchDelete (ids : value).

Definition handle (r : request) (st : Store) : response * Store :=
  match r with
  | GetList p s f => list_notices p s f st
  | GetOne id => get_notice id st
  | Create body => create_notice body st
  | Update id body => update_notice id body st
  | Publish id => publish_notice id st
  | DeleteOne id => delete_notice id st
  | BatchDelete ids => batch_delete ids st
  end.

End Handlers.

(* ================================================================== *)
(** * Upload guard *)

Module Path.

Definition is_slash (c : ascii) : bool := Ascii.eqb c "/".
Definition is_dot (c : ascii) : bool := Ascii.eqb c ".".

Fixpoint drop_slashes (l : list ascii) : list ascii :=
  match l with
  | [] => []
  | c :: l' => if is_slash c then drop_slashes l' else l
  end.

Fixpoint until_slash (l : list ascii) : list ascii :=
  match l with
  | [] => []
  | c :: l' => if is_slash c then [] else c :: until_slash l'
  end.

(** The last part of the path, read from its end: trailing slashes are
    skipped, then the characters down to the previous slash. *)
Definition last_part_rev (p : string) : list ascii :=
  until_slash (drop_slashes (rev (list_ascii_of_string p))).

(** Splits a reversed part at its first dot (the last dot of the part):
    what follows the dot, and what precedes it, both reversed. *)
Fixpoint split_dot (r : list ascii) : option (list ascii * list ascii) :=
  match r with
  | [] => None
  | c :: r' =>
      if is_dot c then Some ([], r')
      else
        match split_dot r' with
        | Some (a, b) => Some (c :: a, b)
        | None => None
        end
  end.

(** The part is [..]: a dot before the last dot, and nothing else. *)
Definition is_dotdot (after_rev before_rev : list ascii) : bool :=
  match before_rev, after_rev with
  | [c], [] => is_dot c
  | _, _ => false
  end.

Definition is_nil (l : list ascii) : bool :=
  match l with [] => true | _ => false end.

(** [path.extname] of Node (POSIX): from the last dot of the last part of
    the path to its end; empty when the part has no dot, when its only
    dot opens it, and for the part [..]. *)
Definition extname (p : string) : string :=
  match split_dot (last_part_rev p) with
  | None => ""
  | Some (after_rev, before_rev) =>
      if is_nil before_rev || is_dotdot after_rev before_rev then ""
      else string_of_list_ascii ("."%char :: rev after_rev)
  end.

(** Neither a dot nor a slash. *)
Definition plain (c : ascii) : bool := negb (is_dot c) && negb (is_slash c).

End Path.

(** [allowedFileTypes.test(s)] for [/jpeg|jpg|png|gif/]: the pattern is
    not anchored, it matches anywhere in [s]. *)
Definition allowedFileTypes (s : string) : bool :=
  Str.includes "jpeg" s || Str.includes "jpg" s
  || Str.includes "png" s || Str.includes "gif" s.

(** The allow-list as the specification words it: the extension of the
    name, lower-cased, is one of the four. *)
Definition extension_allowed (name : string) : bool :=
  existsb (String.eqb (Str.toLowerCase (Path.extname name)))
          [".jpeg"; ".jpg"; ".png"; ".gif"].

(** The file part of a multipart request, as multer hands it over. *)
Record File : Type := mkFile {
  originalname : string;
  size : Z
}.

(** What a multer callback is called with: [cb(error)] or [cb(null, v)]. *)
Inductive callback (A : Type) : Type :=
| CbError (message : string)
| CbValue (a : A).
Arguments CbError {A} message.
Arguments CbValue {A} a.

Definition invalid_file_type : string :=
  "Invalid file type. Only jpeg, jpg, png, and gif files are allowed.".

Definition uploadDir : string := "uploads".

Definition fileFilter (file : File) : callback bool :=
  let ext := Str.toLowerCase (Path.extname (originalname file)) in
  if negb (allowedFileTypes ext) then CbError invalid_file_type
  else CbValue true.

Definition destination (file : File) : callback string :=
  let ext := Str.toLowerCase (Path.extname (originalname file)) in
  if negb (allowedFileTypes ext) then CbError invalid_file_type
  else CbValue uploadDir.

(** What the request reads from its environment: [Date.now()], the
    hexadecimal digits of the fraction [Math.random()] (none for [0]),
    and the [Host] header. *)
Record UploadEnv : Type := mkUploadEnv {
  date_now : Z;
  random_digits : list Z;
  host : string
}.

Definition hex_char (d : Z) : ascii :=
  match get (Z.to_nat (d mod 16)) "0123456789abcdef" with
  | Some c => c
  | None => "0"%char
  end.

(** [Math.random().toString(16).slice(2)] *)
Definition random_token (digits : list Z) : string :=
  string_of_list_ascii (map hex_char digits).

(** The text of an integer. *)
Definition Z_to_string (z : Z) : string :=
  DecimalString.NilZero.string_of_int (Z.to_int z).

Definition filename (env : UploadEnv) (file : File) : string :=
  let ext := Str.toLowerCase (Path.extname (originalname file)) in
  (Z_to_string (date_now env) ++ "_" ++ random_token (random_digits env) ++ ext)%string.

Definition fileSize_limit : Z := 5 * 1024 * 1024.

Definition unlink (name : string) (fs : list string) : list string :=
  filter (fun n => negb (String.eqb n name)) fs.

(** POST /api/upload behind [uploader.single('file')].  The content
    directory is the list of the names of its files.  An error of the
    filter is a plain [Error]: the multer error middleware passes it on
    and the request ends in the 500 middleware.  Nothing assigns
    [req.fileValidationError], so its test never fires. *)
Definition upload (env : UploadEnv) (file : option File) (fs : list string)
  : response * list string :=
  match file with
  | None => (bad "File upload failed or invalid file type", fs)
  | Some f =>
      match fileFilter f with
      | CbError _ => (server_error, fs)
      | CbValue false => (bad "File upload failed or invalid file type", fs)
      | CbValue true =>
          match destination f with
          | CbError _ => (server_error, fs)
          | CbValue _ =>
              let name := filename env f in
              if fileSize_limit <? size f
              then (bad "File too large. Maximum size is 5MB.", fs)
              else
                let fs1 := name :: fs in
                let ext := Str.toLowerCase (Path.extname name) in
                if negb (allowedFileTypes ext)
                then (bad invalid_file_type, unlink name fs1)
                else (ok (DataUrl ("http://" ++ host env ++ "/uploads/" ++ name)%string),
                      fs1)
          end
      end
  end.

(* ================================================================== *)
(** * Concrete requests *)

(** On a text without angle brackets the filter of the [xss] package
    returns the text as it is.  [xss_text] escapes the two brackets and
    keeps everything else; it stands for the filter in the concrete
    requests below, whose texts have no bracket. *)
Fixpoint xss_text (s : string) : string :=
  match s with
  | EmptyString => EmptyString
  | String c s' =>
      if Ascii.eqb c "<" then ("&lt;" ++ xss_text s')%string
      else if Ascii.eqb c ">" then ("&gt;" ++ xss_text s')%string
      else String c (xss_text s')
  end.

Definition empty_store : Store := mkStore [] 1 [].

(** A table of three notices, the second one published. *)
Definition sample_store : Store :=
  mkStore
    [ mkNotice 1 (VStr "first") (VStr "one") None draft None 100 100;
      mkNotice 2 (VStr "second") (VStr "two") (Some "{}") published (Some 250) 200 250;
      mkNotice 3 (VStr "third") (VStr "three") None draft None 300 300 ]
    4 [].

Fixpoint spaces (n : nat) : string :=
  match n with
  | O => EmptyString
  | S n' => String " " (spaces n')
  end.

(** A title of 256 characters: the letter [a] and 255 spaces. *)
Definition padded_title : string := String "a" (spaces 255).

Fixpoint letters (n : nat) : string :=
  match n with
  | O => EmptyString
  | S n' => String "a" (letters n')
  end.

(** An array of 256 items. *)
Definition long_array : value := VArr (repeat VNull 256).

(** The [length] property of the value, if it has one, is a number not
    above the limit.  Numbers and booleans have no such property. *)
Definition length_within (limit : Z) (v : value) : Prop :=
  match v with
  | VArr items => Z.of_nat (List.length items) <= limit
  | VObj props =>
      match Js.lookup "length" props with
      | None => True
      | Some l =>
          exists n, Js.ToNumber l = Ok n /\ Num.gt n (Num.of_Z limit) = false
      end
  | _ => True
  end.

(** Ids are unique and below the next generated id. *)
Definition Store_ok (st : Store) : Prop :=
  NoDup (map row_id (rows st))
  /\ Forall (fun r => row_id r < next_id st) (rows st).


(** The store after a sequence of requests, each served at its time. *)
Fixpoint serve (xss : string -> string) (reqs : list (Z * request)) (st : Store)
  : Store :=
  match reqs with
  | [] => st
  | (now, r) :: rest => serve xss rest (snd (handle xss now r st))
  end.

(** The rows a status filter keeps: all of them for the empty filter. *)
Definition matches_status (status : string) (r : Notice) : bool :=
  Str.is_empty status || String.eqb (status_name (row_status r)) status.

(** Newest first. *)
Definition newer_first (a b : Notice) : Prop :=
  row_created_at b <= row_created_at a.

(** The number is the integer [z], an id that a number holds exactly:
    above [0] and at most [2^53]. *)
Definition is_id (n : number) (z : Z) : Prop :=
  Num.to_Z n = Some z /\ 0 < z <= Num.max_exact.

(** The text of the route parameter stands for the id [z]. *)
Definition addresses (id : string) (z : Z) : Prop :=
  is_id (NumStr.StringToNumber id) z.

(** The answer is a success that carries the payload. *)
Definition success (r : response) (d : payload) : Prop :=
  http_status r = 200 /\ code r = 0 /\ data r = d.

(** The answer is a refusal with the message. *)
Definition refusal (r : response) (m : string) : Prop :=
  http_status r = 400 /\ code r = 1 /\ msg r = m.

(** The summary holds the columns of the row. *)
Definition shows (s : Summary) (r : Notice) : Prop :=
  sum_id s = row_id r
  /\ sum_title s = row_title r
  /\ sum_content s = row_content r
  /\ sum_status s = row_status r
  /\ sum_publish_time s = row_publish_time r
  /\ sum_created_at s = row_created_at r
  /\ sum_updated_at s = row_updated_at r.

(** ** Notions used by the further properties *)

(** The shapes [ok], [bad] and the 500 middleware give an answer. *)
Definition envelope (r : response) : Prop :=
  (http_status r = 200 /\ code r = 0 /\ msg r = "ok")
  \/ (http_status r = 400 /\ code r = 1 /\ data r = NoData)
  \/ r = server_error.

(** A field that is absent, [null] or [false], or a string that is only
    white space. *)
Definition blank (v : value) : Prop :=
  v = VUndefined \/ v = VNull \/ v = VBool false
  \/ exists s, v = VStr s /\ Str.trim s = "".

(** A text as the handlers store it: a string that the filter returned
    for a trimmed text, not empty and within the limit. *)
Definition stored_text (xss : string -> string) (limit : Z) (v : value) : Prop :=
  exists s s0, v = VStr s /\ s = xss (Str.trim s0) /\ 0 < Str.len s <= limit.

Definition row_ok (xss : string -> string) (r : Notice) : Prop :=
  stored_text xss 255 (row_title r) /\ stored_text xss 50000 (row_content r).

(** A field of a body that is a string, or that the validators refuse as
    missing. *)
Definition text_or_missing (v : value) : Prop :=
  Js.is_string v = true \/ Js.truthy v = false.

(** A request whose title and content, if it has a body, are strings or
    missing. *)
Definition textual (req : request) : Prop :=
  match req with
  | Create body | Update _ body =>
      text_or_missing (body_title body) /\ text_or_missing (body_content body)
  | _ => True
  end.

Definition status_filter_ok (w : option string) : Prop :=
  w = None \/ w = Some "draft" \/ w = Some "published".

Definition above_zero (n : number) : Prop := Num.gt n (Num.of_Z 0) = true.

(** A title or content that comes out of [sanitizeInput] and that its
    validator accepts. *)
Definition checked_title (xss : string -> string) (t : value) : Prop :=
  (exists v, t = sanitizeInput xss v) /\ validateTitle t = Ok None.

Definition checked_content (xss : string -> string) (c : value) : Prop :=
  (exists v, c = sanitizeInput xss v) /\ validateContent c = Ok None.

(** What the handlers guarantee of a statement they send. *)
Definition sent_ok (xss : string -> string) (q : query) : Prop :=
  match q with
  | SelectPage w limit _ =>
      status_filter_ok w
      /\ Num.le limit (Num.of_Z 0) = false
      /\ Num.gt limit (Num.of_Z 100) = false
  | SelectCount w => status_filter_ok w
  | SelectById n | PublishNotice n | DeleteNotice n => above_zero n
  | InsertNotice t c _ => checked_title xss t /\ checked_content xss c
  | UpdateNotice t c _ n =>
      checked_title xss t /\ checked_content xss c /\ above_zero n
  | DeleteIn ns =>
      (0 < List.length ns <= 100)%nat /\ Forall above_zero ns
  end.

(** The statements a route sends: none when it refuses the request
    before storage, else its one statement; the list sends its page
    statement and, when that one is answered, the count. *)
Definition statements_of (req : request) (qs : list query) : Prop :=
  qs = []
  \/ match req with
     | GetList _ _ _ =>
         exists w limit offset,
           qs = [SelectPage w limit offset]
           \/ qs = [SelectPage w limit offset; SelectCount w]
     | GetOne id => qs = [SelectById (NumStr.StringToNumber id)]
     | Create _ => exists t c d, qs = [InsertNotice t c d]
     | Update id _ =>
         exists t c d, qs = [UpdateNotice t c d (NumStr.StringToNumber id)]
     | Publish id => qs = [PublishNotice (NumStr.StringToNumber id)]
     | DeleteOne id => qs = [DeleteNotice (NumStr.StringToNumber id)]
     | BatchDelete _ => exists ns, qs = [DeleteIn ns]
     end.

(** The store after a sequence of statements. *)
Definition run_all (now : Z) (qs : list query) (st : Store) : Store :=
  fold_left (fun s q => snd (Db.query now q s)) qs st.

(** The rows of a list answer. *)
Definition listed (r : response) : list Summary :=
  match data r with
  | DataList l _ _ _ => l
  | _ => []
  end.

(** The list of the matching rows, newest first. *)
Definition matching_sorted (status : string) (st : Store) : list Notice :=
  Db.order_by_created_desc (filter (matches_status status) (rows st)).

(* ================================================================== *)
(** * Properties *)

(** ** Sample runs of the primitives *)

Example StringToNumber_samples :
  map NumStr.StringToNumber
      ["7"; " 12 "; ""; "-3"; "0x1F"; "1.5"; "abc"; "1e2"; "5."; ".5"; "."; "-0"; "Infinity"; "-Infinity"; "1,2"; "0x"; "+-1"]
  = [Num.of_Z 7; Num.of_Z 12; Num.of_Z 0; Fin (-3 # 1); Num.of_Z 31; Fin (3 # 2); NaN; Num.of_Z 100;
     Num.of_Z 5; Fin (1 # 2); NaN; Fin (0 # 1); PosInf; NegInf; NaN; NaN; NaN].
Proof. vm_compute. reflexivity. Qed.

Example extname_samples :
  map Path.extname
      ["a.png"; "a.b.PNG"; ".bashrc"; ".."; "a."; "dir.x/file"; "a.txt/"; "..."; "x/.."; ".a.b"; "noext"; ""]
  = [".png"; ".PNG"; ""; ""; "."; ""; ".txt"; "."; ""; ".b"; ""; ""].
Proof. reflexivity. Qed.

Example upload_png :
  upload (mkUploadEnv 1700000000000 [10; 3; 15] "127.0.0.1:3000")
         (Some (mkFile "Cat.PNG" 1024)) []
  = (ok (DataUrl "http://127.0.0.1:3000/uploads/1700000000000_a3f.png"),
     ["1700000000000_a3f.png"]).
Proof. vm_compute. reflexivity. Qed.

(* ------------------------------------------------------------------ *)
(** ** Identifiers *)

Lemma validateId_invalid (id : string) :
  NumStr.StringToNumber id = NaN
  \/ Num.le (NumStr.StringToNumber id) (Num.of_Z 0) = true ->
  validateId id = Some "Invalid ID".
Proof.
  unfold validateId. intros [H | H]; rewrite H.
  - reflexivity.
  - now rewrite orb_true_r.
Qed.

Lemma validateId_valid (id : string) :
  validateId id = None ->
  Num.truthy (NumStr.StringToNumber id) = true
  /\ Num.le (NumStr.StringToNumber id) (Num.of_Z 0) = false.
Proof.
  unfold validateId.
  destruct (Num.truthy (NumStr.StringToNumber id)); simpl;
    destruct (Num.le (NumStr.StringToNumber id) (Num.of_Z 0)); simpl;
    intros H; try discriminate H; split; reflexivity.
Qed.

(** C4: an id that is not numeric ([Number(id)] is [NaN]) or whose number
    is at most [0] makes each of the four id-addressed handlers (get,
    update, publish, delete) answer "Invalid ID" and leave the store as it
    was: no row changes and no statement is sent. *)
Theorem invalid_id_no_storage_call
  (xss : string -> string) (now : Z) (id : string) (body : Body) (st : Store) :
  NumStr.StringToNumber id = NaN
  \/ Num.le (NumStr.StringToNumber id) (Num.of_Z 0) = true ->
  get_notice now id st = (bad "Invalid ID", st)
  /\ update_notice xss now id body st = (bad "Invalid ID", st)
  /\ publish_notice now id st = (bad "Invalid ID", st)
  /\ delete_notice now id st = (bad "Invalid ID", st).
Proof.
  intros H. apply validateId_invalid in H.
  unfold get_notice, update_notice, publish_notice, delete_notice.
  rewrite H. repeat split.
Qed.

Lemma invalid_id_no_storage_call_witness :
  get_notice 7 "0" sample_store = (bad "Invalid ID", sample_store)
  /\ get_notice 7 "abc" sample_store = (bad "Invalid ID", sample_store).
Proof.
  split.
  - exact (proj1 (invalid_id_no_storage_call
                    xss_text 7 "0" (mkBody VUndefined VUndefined None)
                    sample_store (or_intror eq_refl))).
  - exact (proj1 (invalid_id_no_storage_call
                    xss_text 7 "abc" (mkBody VUndefined VUndefined None)
                    sample_store (or_introl eq_refl))).
Defined.

(* ------------------------------------------------------------------ *)
(** ** Pagination bounds *)

Lemma list_bounds_rejected
  (now : Z) (page_q size_q status_q : option string) (st : Store) :
  Num.le (query_number page_q 1) (Num.of_Z 0) = true
  \/ Num.le (query_number size_q 10) (Num.of_Z 0) = true
  \/ Num.gt (query_number size_q 10) (Num.of_Z 100) = true ->
  list_notices now page_q size_q status_q st = (bad "page/size invalid", st).
Proof.
  unfold list_notices. intros [H | [H | H]]; rewrite H;
    rewrite ?orb_true_r; reflexivity.
Qed.

Example size_101_rejected :
  list_notices 0 None (Some "101") None sample_store
  = (bad "page/size invalid", sample_store).
Proof. apply list_bounds_rejected. right; right. reflexivity. Qed.

Example size_100_accepted :
  fst (list_notices 0 None (Some "100") None sample_store)
  = ok (DataList (map summary (rev (rows sample_store))) 3
                 (Num.of_Z 1) (Num.of_Z 100)).
Proof. vm_compute. reflexivity. Qed.

(** C3: the bounds check compares with [<=] and [>], which are all false
    on [NaN].  For [page=abc] the page is not greater than [0], yet the
    request is not refused with "page/size invalid": the list statement is
    sent with the offset [NaN], the engine refuses it and the request ends
    in the 500 middleware. *)
Theorem list_page_not_a_number_reaches_storage :
  query_number (Some "abc") 1 = NaN
  /\ Num.gt (query_number (Some "abc") 1) (Num.of_Z 0) = false
  /\ list_notices 0 (Some "abc") None None empty_store
     = (server_error, mkStore [] 1 [SelectPage None (Num.of_Z 10) NaN]).
Proof. repeat split. Qed.

(* ------------------------------------------------------------------ *)
(** ** The extension filter *)

Lemma fileFilter_accepts_listed (f : File) :
  extension_allowed (originalname f) = true -> fileFilter f = CbValue true.
Proof.
  unfold extension_allowed, fileFilter. simpl. rewrite !orb_true_iff.
  intros [H | [H | [H | [H | H]]]]; try discriminate H;
    apply String.eqb_eq in H; rewrite H; reflexivity.
Qed.

Lemma fileFilter_reject_writes_nothing
  (env : UploadEnv) (f : File) (fs : list string) (m : string) :
  fileFilter f = CbError m -> upload env (Some f) fs = (server_error, fs).
Proof. unfold upload. intros ->. reflexivity. Qed.

(** C1: the pattern [/jpeg|jpg|png|gif/] is tested anywhere in the
    extension.  The extension of [photo.jpgx] is not one of jpeg, jpg, png,
    gif, yet the filter accepts the file and the upload writes it to the
    content directory. *)
Theorem fileFilter_accepts_unlisted_extension :
  extension_allowed "photo.jpgx" = false
  /\ fileFilter (mkFile "photo.jpgx" 10) = CbValue true
  /\ upload (mkUploadEnv 1700000000000 [10; 3; 15] "127.0.0.1:3000")
            (Some (mkFile "photo.jpgx" 10)) []
     = (ok (DataUrl "http://127.0.0.1:3000/uploads/1700000000000_a3f.jpgx"),
        ["1700000000000_a3f.jpgx"]).
Proof. repeat split. Qed.

(* ------------------------------------------------------------------ *)
(** ** Comparisons of integers as numbers *)

Lemma Qle_bool_inject_Z (a b : Z) :
  Qle_bool (inject_Z a) (inject_Z b) = (a <=? b).
Proof. unfold Qle_bool. simpl. now rewrite !Z.mul_1_r. Qed.

Lemma gt_of_Z (a b : Z) : Num.gt (Num.of_Z a) (Num.of_Z b) = (b <? a).
Proof.
  unfold Num.gt, Num.lt, Num.of_Z, Num.Qlt_bool.
  rewrite Qle_bool_inject_Z. now rewrite Z.ltb_antisym.
Qed.

Lemma is_empty_length (s : string) :
  Str.is_empty s = true <-> String.length s = 0%nat.
Proof. destruct s; simpl; split; intros H; congruence. Qed.

(* ------------------------------------------------------------------ *)
(** ** Numbers that are integers *)

Lemma to_Z_spec (n : number) (z : Z) :
  Num.to_Z n = Some z -> exists q, n = Fin q /\ q == inject_Z z.
Proof.
  destruct n as [ | | | q]; simpl; try discriminate.
  destruct (Qeq_bool q (inject_Z (Qfloor q))) eqn:E; [ | discriminate].
  intros H. injection H as <-. exists q. split; [reflexivity | ].
  now apply Qeq_bool_iff.
Qed.

Lemma to_Z_of_Qeq (q : Q) (z : Z) : q == inject_Z z -> Num.to_Z (Fin q) = Some z.
Proof.
  intros H. unfold Num.to_Z.
  assert (F : Qfloor q = z) by (rewrite H; apply Qfloor_Z).
  rewrite F. apply Qeq_bool_iff in H. now rewrite H.
Qed.

Lemma to_Z_of_Z (z : Z) : Num.to_Z (Num.of_Z z) = Some z.
Proof. apply to_Z_of_Qeq. reflexivity. Qed.

Lemma to_Z_finite (n : number) (z : Z) :
  Num.to_Z n = Some z -> Num.finite n = true.
Proof. intros H. apply to_Z_spec in H. now destruct H as [q [-> _]]. Qed.

(** The number that stands for [z] is the integer [k] only when [k] is
    [z]. *)
Lemma is_Z_to_Z (n : number) (z k : Z) :
  Num.to_Z n = Some z -> Num.is_Z n k = (z =? k).
Proof.
  intros H. apply to_Z_spec in H. destruct H as [q [-> Hq]].
  unfold Num.is_Z. destruct (Z.eqb_spec z k) as [<- | N].
  - now apply Qeq_bool_iff.
  - destruct (Qeq_bool q (inject_Z k)) eqn:E; [ | reflexivity].
    apply Qeq_bool_iff in E. rewrite Hq in E.
    rewrite inject_Z_injective in E. contradiction.
Qed.

Lemma le_zero_of_positive (n : number) (z : Z) :
  Num.to_Z n = Some z -> 0 < z -> Num.le n (Num.of_Z 0) = false.
Proof.
  intros H Hz. apply to_Z_spec in H. destruct H as [q [-> Hq]].
  unfold Num.le, Num.lt, Num.of_Z, Num.Qlt_bool. simpl.
  destruct (Qle_bool q (inject_Z 0)) eqn:E; [ | reflexivity].
  apply Qle_bool_iff in E. rewrite Hq in E. rewrite <- Zle_Qle in E. lia.
Qed.

Lemma truthy_of_positive (n : number) (z : Z) :
  Num.to_Z n = Some z -> 0 < z -> Num.truthy n = true.
Proof.
  intros H Hz. apply to_Z_spec in H. destruct H as [q [-> Hq]].
  unfold Num.truthy. destruct (Qeq_bool q 0) eqn:E; [ | reflexivity].
  apply Qeq_bool_iff in E. rewrite Hq in E.
  change 0%Q with (inject_Z 0) in E. rewrite inject_Z_injective in E. lia.
Qed.

Lemma gt_of_at_most (n : number) (z k : Z) :
  Num.to_Z n = Some z -> z <= k -> Num.gt n (Num.of_Z k) = false.
Proof.
  intros H Hz. apply to_Z_spec in H. destruct H as [q [-> Hq]].
  unfold Num.gt, Num.lt, Num.of_Z, Num.Qlt_bool.
  assert (E : Qle_bool q (inject_Z k) = true).
  { apply Qle_bool_iff. rewrite Hq. now rewrite <- Zle_Qle. }
  now rewrite E.
Qed.

Lemma is_id_valid (id : string) (z : Z) :
  addresses id z ->
  validateId id = None /\ Num.finite (NumStr.StringToNumber id) = true.
Proof.
  intros [H [Hz _]]. split; [ | now apply (to_Z_finite _ z)].
  unfold validateId.
  now rewrite (truthy_of_positive _ z H Hz), (le_zero_of_positive _ z H Hz).
Qed.

(** *** Rounding keeps the integers up to [2^53] *)

Lemma Qred_inject_Z (z : Z) : Qred (inject_Z z) = inject_Z z.
Proof.
  unfold Qred, inject_Z. simpl Qnum. simpl Qden.
  pose proof (Z.ggcd_gcd z 1) as G.
  pose proof (Z.ggcd_correct_divisors z 1) as D.
  destruct (Z.ggcd z 1) as [g [aa bb]]. simpl in *.
  rewrite Z.gcd_1_r in G. subst g. destruct D as [D1 D2].
  rewrite Z.mul_1_l in D1, D2. subst. reflexivity.
Qed.

Lemma pow2_nonneg (e : Z) : 0 <= e -> Num.pow2 e = inject_Z (2 ^ e).
Proof.
  intros H. unfold Num.pow2. destruct (Z.leb_spec 0 e); [reflexivity | lia].
Qed.

Lemma pow2_inverse (e : Z) :
  0 <= e -> (inject_Z (2 ^ e) * Num.pow2 (- e) == 1)%Q.
Proof.
  intros H. unfold Num.pow2.
  destruct (Z.leb_spec 0 (- e)) as [L | L].
  - replace e with 0 by lia. reflexivity.
  - rewrite Z.opp_involutive.
    assert (P : 0 < 2 ^ e) by (apply Z.pow_pos_nonneg; lia).
    unfold Qeq, Qmult, inject_Z. cbn [Qnum Qden].
    rewrite Pos.mul_1_l, Z2Pos.id by exact P. lia.
Qed.

Lemma nearest_even_Z (k : Z) : Num.nearest_even (inject_Z k) = k.
Proof.
  unfold Num.nearest_even. rewrite Qfloor_Z.
  assert (E : (inject_Z k - inject_Z k ?= 1 # 2)%Q = Lt).
  { apply Qlt_alt. setoid_replace (inject_Z k - inject_Z k)%Q with 0%Q by ring.
    reflexivity. }
  now rewrite E.
Qed.

(** A positive integer up to [2^53] is a value of binary64. *)
Lemma round_pos_exact (p : positive) :
  Zpos p <= Num.max_exact -> Num.round_pos p 1 = Some (inject_Z (Zpos p)).
Proof.
  intros Hp. destruct (Z.eq_dec (Zpos p) Num.max_exact) as [E | N].
  - injection E as ->. vm_compute. reflexivity.
  - assert (Hlt : Zpos p < 2 ^ 53) by (change (2 ^ 53) with Num.max_exact; lia).
    set (L := Z.log2 (Zpos p)).
    assert (HL : 0 <= L < 53).
    { split; [apply Z.log2_nonneg | apply Z.log2_lt_pow2; lia]. }
    assert (Hs : 2 ^ L <= Zpos p) by (apply Z.log2_spec; lia).
    unfold Num.round_pos.
    assert (Ex : Num.exponent p 1 = L).
    { unfold Num.exponent. change (Z.log2 1) with 0. rewrite Z.sub_0_r. fold L.
      rewrite (pow2_nonneg L) by lia.
      change (Zpos p # 1) with (inject_Z (Zpos p)).
      rewrite Qle_bool_inject_Z.
      destruct (Z.leb_spec (2 ^ L) (Zpos p)); [reflexivity | lia]. }
    rewrite Ex. rewrite Z.max_l by lia.
    rewrite (pow2_nonneg (52 - L)) by lia.
    change (Zpos p # 1) with (inject_Z (Zpos p)).
    rewrite <- inject_Z_mult, nearest_even_Z.
    replace (L - 52) with (- (52 - L)) by lia.
    assert (V : (inject_Z (Zpos p * 2 ^ (52 - L)) * Num.pow2 (- (52 - L))
                 == inject_Z (Zpos p))%Q).
    { rewrite inject_Z_mult, <- Qmult_assoc, pow2_inverse by lia.
      apply Qmult_1_r. }
    assert (B : Qle_bool (Num.pow2 1024)
                  (inject_Z (Zpos p * 2 ^ (52 - L)) * Num.pow2 (- (52 - L)))%Q
                = false).
    { destruct (Qle_bool _ _) eqn:Q; [ | reflexivity].
      apply Qle_bool_iff in Q. rewrite V in Q.
      rewrite (pow2_nonneg 1024) in Q by lia. rewrite <- Zle_Qle in Q.
      assert (2 ^ 53 < 2 ^ 1024) by (apply Z.pow_lt_mono_r; lia). lia. }
    rewrite B. f_equal.
    rewrite (Qred_complete _ _ V). apply Qred_inject_Z.
Qed.

(** A rational that is an integer from [0] to [2^53] rounds to it. *)
Lemma round_exact (q : Q) (z : Z) :
  q == inject_Z z -> 0 <= z <= Num.max_exact -> Num.round q = Num.of_Z z.
Proof.
  intros H Hz. unfold Num.round.
  rewrite (Qred_complete _ _ H), Qred_inject_Z. cbn [inject_Z Qnum Qden].
  destruct z as [ | p | p]; [reflexivity | | lia].
  now rewrite round_pos_exact by lia.
Qed.

(** The offset [(page - 1) * size] of two integers is the integer, as
    long as it is at most [2^53]. *)
Lemma offset_to_Z (page size : number) (P S : Z) :
  Num.to_Z page = Some P -> Num.to_Z size = Some S ->
  0 < P -> 0 < S -> (P - 1) * S <= Num.max_exact ->
  Num.mul (Num.sub page (Num.of_Z 1)) size = Num.of_Z ((P - 1) * S).
Proof.
  intros Hp Hs HP HS Hb. apply to_Z_spec in Hp, Hs.
  destruct Hp as [qp [-> Hp]], Hs as [qs [-> Hs]].
  cbn [Num.sub Num.of_Z].
  rewrite (round_exact (qp - inject_Z 1)%Q (P - 1)).
  - cbn [Num.mul Num.of_Z]. apply round_exact; [ | nia].
    rewrite Hs. now rewrite inject_Z_mult.
  - rewrite Hp. unfold Z.sub. now rewrite inject_Z_plus, inject_Z_opp.
  - nia.
Qed.

(* ------------------------------------------------------------------ *)
(** ** Length of the title *)

Lemma validateTitle_long (t : string) :
  (255 < String.length t)%nat ->
  validateTitle (VStr t) = Ok (Some "Title is too long (max 255 characters)").
Proof.
  intros H. unfold validateTitle. simpl Js.truthy.
  destruct (Str.is_empty t) eqn:E.
  - apply is_empty_length in E. lia.
  - cbn [negb Js.get_length bind Js.gt_number Js.ToNumber].
    rewrite gt_of_Z. unfold Str.len.
    destruct (Z.ltb_spec 255 (Z.of_nat (String.length t))); [reflexivity | lia].
Qed.

(** C2 (as amended): when the title, once sanitised (trimmed, then passed
    through the xss filter), is a string of more than 255 characters,
    create answers "Title is too long (max 255 characters)" and so does
    update for an id that passes [validateId]; the store is left as it was,
    so no row is inserted or changed and no statement is sent. *)
Theorem long_title_rejected
  (xss : string -> string) (now : Z) (id : string) (body : Body)
  (st : Store) (s : string) :
  body_title body = VStr s ->
  (255 < String.length (xss (Str.trim s)))%nat ->
  create_notice xss now body st
  = (bad "Title is too long (max 255 characters)", st)
  /\ (validateId id = None ->
      update_notice xss now id body st
      = (bad "Title is too long (max 255 characters)", st)).
Proof.
  intros Ht Hl. unfold create_notice, update_notice.
  rewrite Ht. cbn [sanitizeInput]. rewrite (validateTitle_long _ Hl).
  split; [reflexivity | intros ->; reflexivity].
Qed.

Lemma long_title_rejected_witness :
  create_notice xss_text 5 (mkBody (VStr (letters 256)) (VStr "c") None) sample_store
  = (bad "Title is too long (max 255 characters)", sample_store)
  /\ update_notice xss_text 5 "2" (mkBody (VStr (letters 256)) (VStr "c") None) sample_store
     = (bad "Title is too long (max 255 characters)", sample_store).
Proof.
  assert (Hl : (255 < String.length (xss_text (Str.trim (letters 256))))%nat)
    by (vm_compute; lia).
  pose proof (long_title_rejected xss_text 5 "2"
                (mkBody (VStr (letters 256)) (VStr "c") None)
                sample_store (letters 256) eq_refl Hl) as [Hc Hu].
  split; [exact Hc | exact (Hu eq_refl)].
Defined.

(** C2 as stated fails: a title of 256 characters that is the letter [a]
    followed by 255 spaces is trimmed to one character before it is
    measured, and the row is inserted; and an update whose id is invalid
    answers "Invalid ID" whatever the title. *)
Lemma padded_title_counterexample :
  String.length padded_title = 256%nat
  /\ create_notice xss_text 5 (mkBody (VStr padded_title) (VStr "c") None)
                   empty_store
     = (ok (DataId 1),
        mkStore [mkNotice 1 (VStr "a") (VStr "c") None draft None 5 5] 2
                [InsertNotice (VStr "a") (VStr "c") None])
  /\ update_notice xss_text 5 "0" (mkBody (VStr (letters 256)) (VStr "c") None)
                   sample_store
     = (bad "Invalid ID", sample_store).
Proof. vm_compute. repeat split. Qed.

(* ------------------------------------------------------------------ *)
(** ** Values that are not strings *)

Lemma sanitizeInput_non_string (xss : string -> string) (v : value) :
  Js.is_string v = false -> sanitizeInput xss v = v.
Proof. destruct v; simpl; intros H; try reflexivity; discriminate H. Qed.

Lemma length_check_passes (limit : Z) (v : value) :
  Js.is_string v = false -> Js.truthy v = true -> length_within limit v ->
  (len <- Js.get_length v ;; Js.gt_number len limit)%result = Ok false.
Proof.
  destruct v as [ | | b | n | s | items | props ];
    cbn [Js.is_string Js.truthy length_within Js.get_length bind];
    intros Hs Ht Hl; try discriminate; try reflexivity.
  - unfold Js.gt_number. cbn [Js.ToNumber bind]. rewrite gt_of_Z.
    destruct (Z.ltb_spec limit (Z.of_nat (List.length items)));
      [lia | reflexivity].
  - destruct (Js.lookup "length" props) as [l | ].
    + destruct Hl as [n [Hn Hg]]. cbn [bind]. unfold Js.gt_number.
      rewrite Hn. cbn [bind]. now rewrite Hg.
    + reflexivity.
Qed.

Lemma validateTitle_non_string (v : value) :
  Js.is_string v = false -> Js.truthy v = true -> length_within 255 v ->
  validateTitle v = Ok None.
Proof.
  intros Hs Ht Hl. unfold validateTitle. rewrite Ht. cbn [negb].
  pose proof (length_check_passes 255 v Hs Ht Hl) as H.
  destruct (Js.get_length v) as [len | ]; simpl in *; [ | discriminate H].
  rewrite H. reflexivity.
Qed.

Lemma validateContent_non_string (v : value) :
  Js.is_string v = false -> Js.truthy v = true -> length_within 50000 v ->
  validateContent v = Ok None.
Proof.
  intros Hs Ht Hl. unfold validateContent. rewrite Ht. cbn [negb].
  pose proof (length_check_passes 50000 v Hs Ht Hl) as H.
  destruct (Js.get_length v) as [len | ]; simpl in *; [ | discriminate H].
  rewrite H. reflexivity.
Qed.

Lemma query_eq (now : Z) (q : query) (st : Store) :
  Db.query now q st
  = (fst (fst (Db.run now q (rows st) (next_id st))),
     mkStore (snd (fst (Db.run now q (rows st) (next_id st))))
             (snd (Db.run now q (rows st) (next_id st)))
             (log st ++ [q])).
Proof.
  unfold Db.query. now destruct (Db.run now q (rows st) (next_id st)) as [[r t] n].
Qed.

(** Whatever it answers, a statement sent is added to the log. *)
Lemma query_log (now : Z) (q : query) (st : Store) :
  log (snd (Db.query now q st)) = (log st ++ [q])%list.
Proof. now rewrite query_eq. Qed.

(** C10 (as amended): a truthy value that is not a string and whose
    [length] property, if it has one, is a number not above the limit
    (255 for the title, 50000 for the content) is returned unchanged by
    [sanitizeInput] and reported valid; create then sends the INSERT with
    the two values as they were received, and update, for an id that
    passes [validateId], sends the UPDATE with them.  What storage makes
    of a parameter that is not a string is not part of the statement. *)
Theorem non_string_values_are_sent
  (xss : string -> string) (now : Z) (id : string)
  (title content : value) (delta : option string) (st : Store) :
  Js.is_string title = false -> Js.truthy title = true ->
  length_within 255 title ->
  Js.is_string content = false -> Js.truthy content = true ->
  length_within 50000 content ->
  sanitizeInput xss title = title
  /\ sanitizeInput xss content = content
  /\ validateTitle title = Ok None
  /\ validateContent content = Ok None
  /\ log (snd (create_notice xss now (mkBody title content delta) st))
     = (log st ++ [InsertNotice title content (delta_param delta)])%list
  /\ (validateId id = None ->
      log (snd (update_notice xss now id (mkBody title content delta) st))
      = (log st ++ [UpdateNotice title content (delta_param delta)
                                 (NumStr.StringToNumber id)])%list).
Proof.
  intros Hs1 Ht1 Hl1 Hs2 Ht2 Hl2.
  pose proof (sanitizeInput_non_string xss title Hs1) as S1.
  pose proof (sanitizeInput_non_string xss content Hs2) as S2.
  pose proof (validateTitle_non_string title Hs1 Ht1 Hl1) as V1.
  pose proof (validateContent_non_string content Hs2 Ht2 Hl2) as V2.
  repeat split; try assumption.
  - unfold create_notice. cbn [body_title body_content body_content_delta].
    rewrite S1, S2, V1, V2.
    pose proof (query_log now (InsertNotice title content (delta_param delta)) st)
      as H.
    now destruct (Db.query now _ st) as [[[ | | | | ] | ] st1].
  - intros Hid. unfold update_notice. rewrite Hid.
    cbn [body_title body_content body_content_delta].
    rewrite S1, S2, V1, V2.
    pose proof (query_log now (UpdateNotice title content (delta_param delta)
                                            (NumStr.StringToNumber id)) st)
      as H.
    now destruct (Db.query now _ st) as [[ | ] st1].
Qed.

Lemma non_string_values_are_sent_witness :
  log (snd (create_notice xss_text 9
              (mkBody (VNum (Num.of_Z 42)) (VBool true) None) empty_store))
  = [InsertNotice (VNum (Num.of_Z 42)) (VBool true) None]
  /\ log (snd (update_notice xss_text 9 "1"
                 (mkBody (VArr [VStr "<b>"]) (VObj []) (Some "{}")) empty_store))
     = [UpdateNotice (VArr [VStr "<b>"]) (VObj []) (Some "{}") (Num.of_Z 1)].
Proof.
  split.
  - exact (proj1 (proj2 (proj2 (proj2 (proj2
      (non_string_values_are_sent xss_text 9 "1"
         (VNum (Num.of_Z 42)) (VBool true) None empty_store
         eq_refl eq_refl I eq_refl eq_refl I)))))).
  - refine (proj2 (proj2 (proj2 (proj2 (proj2
      (non_string_values_are_sent xss_text 9 "1"
         (VArr [VStr "<b>"]) (VObj []) (Some "{}") empty_store
         eq_refl eq_refl _ eq_refl eq_refl I))))) eq_refl).
    simpl. lia.
Defined.

(** C10 as stated fails: an array of 256 items is truthy and not a string,
    [sanitizeInput] returns it unchanged, but it has a [length], the title
    limit is applied to it and create answers "Title is too long". *)
Lemma array_title_counterexample :
  Js.is_string long_array = false
  /\ Js.truthy long_array = true
  /\ sanitizeInput xss_text long_array = long_array
  /\ validateTitle long_array
     = Ok (Some "Title is too long (max 255 characters)")
  /\ create_notice xss_text 5 (mkBody long_array (VNum (Num.of_Z 1)) None)
                   empty_store
     = (bad "Title is too long (max 255 characters)", empty_store).
Proof. vm_compute. repeat split. Qed.

(* ------------------------------------------------------------------ *)
(** ** Batch delete *)

Lemma delete_where_In (f : Notice -> bool) (t : list Notice) (r : Notice) :
  In r (Db.delete_where f t) <-> In r t /\ f r = false.
Proof.
  unfold Db.delete_where. rewrite filter_In.
  now rewrite negb_true_iff.
Qed.

Lemma where_id_of_id (n : number) (z : Z) (r : Notice) :
  Num.to_Z n = Some z -> Db.where_id n r = (z =? row_id r).
Proof. apply is_Z_to_Z. Qed.

(** [WHERE id IN (...)] on numbers that are integers keeps the rows
    whose id is one of the integers. *)
Lemma where_id_in_ids (ns : list number) (zs : list Z) (r : Notice) :
  Forall2 is_id ns zs ->
  Db.where_id_in ns r = true <-> In (row_id r) zs.
Proof.
  unfold Db.where_id_in.
  induction 1 as [ | n z ns zs [Hn _] _ IH ]; simpl.
  - split; [discriminate | contradiction].
  - rewrite orb_true_iff, IH, (is_Z_to_Z n z _ Hn), Z.eqb_eq. tauto.
Qed.

Lemma ids_finite (ns : list number) (zs : list Z) :
  Forall2 is_id ns zs -> forallb Num.finite ns = true.
Proof.
  induction 1 as [ | n z ns zs [Hn _] _ IH ]; simpl; [reflexivity | ].
  now rewrite (to_Z_finite n z Hn), IH.
Qed.

(** C5 (as amended): let the id list be a non-empty array whose entries
    all coerce to numbers, and keep the numbers above [0].  With more than
    100 kept, the request is refused with "Too many IDs in batch operation
    (max 100)" and the store is left as it was.  With none kept, it is
    refused with "ids invalid".  With 1 to 100 kept, in particular 100,
    all of them integers up to [2^53], the request succeeds: one DELETE is
    sent with the kept ids, and exactly the rows whose id is one of them
    are removed. *)
Theorem batch_delete_bounds
  (now : Z) (items : list value) (nums : list number) (st : Store) :
  mapM Js.ToNumber items = Ok nums ->
  ((100 < List.length (filter (fun n => Num.gt n (Num.of_Z 0)) nums))%nat ->
   batch_delete now (VArr items) st
   = (bad "Too many IDs in batch operation (max 100)", st))
  /\ (items <> [] ->
      filter (fun n => Num.gt n (Num.of_Z 0)) nums = [] ->
      batch_delete now (VArr items) st = (bad "ids invalid", st))
  /\ (forall zs : list Z,
        Forall2 is_id (filter (fun n => Num.gt n (Num.of_Z 0)) nums) zs ->
        (0 < List.length zs <= 100)%nat ->
        success (fst (batch_delete now (VArr items) st)) DataTrue
        /\ log (snd (batch_delete now (VArr items) st))
           = (log st ++ [DeleteIn (filter (fun n => Num.gt n (Num.of_Z 0)) nums)])%list
        /\ forall r, In r (rows (snd (batch_delete now (VArr items) st))) <->
                     In r (rows st) /\ ~ In (row_id r) zs).
Proof.
  intros Hm.
  set (safeIds := filter (fun n => Num.gt n (Num.of_Z 0)) nums).
  assert (Hs : safe_ids items = Ok safeIds).
  { unfold safe_ids. rewrite Hm. reflexivity. }
  destruct items as [ | x items ].
  - simpl in Hm. injection Hm as <-. simpl in safeIds. subst safeIds.
    split; [simpl; lia | ]. split; [congruence | ].
    intros zs Hz Hl. inversion Hz; subst. simpl in Hl. lia.
  - unfold batch_delete. cbn [Js.truthy]. rewrite Hs.
    split; [ | split].
    + intros Hl.
      destruct (Nat.eqb_spec (List.length safeIds) 0); [lia | ].
      destruct (Nat.ltb_spec 100 (List.length safeIds)); [reflexivity | lia].
    + intros _ He. rewrite He. reflexivity.
    + intros zs Hz Hl. rewrite <- (Forall2_length Hz) in Hl.
      destruct (Nat.eqb_spec (List.length safeIds) 0); [lia | ].
      destruct (Nat.ltb_spec 100 (List.length safeIds)); [lia | ].
      rewrite query_eq. cbn [Db.run]. rewrite (ids_finite _ _ Hz).
      cbn [fst snd rows log].
      split; [repeat split | split; [reflexivity | ]].
      intros r. rewrite delete_where_In, <- (where_id_in_ids _ _ r Hz).
      destruct (Db.where_id_in safeIds r); intuition congruence.
Qed.

Lemma batch_delete_bounds_witness :
  batch_delete 0 (VArr (repeat (VStr "5") 101)) sample_store
  = (bad "Too many IDs in batch operation (max 100)", sample_store)
  /\ batch_delete 0 (VArr [VStr "x"; VNum (Num.of_Z 0)]) sample_store
     = (bad "ids invalid", sample_store)
  /\ forall r,
       In r (rows (snd (batch_delete 0 (VArr [VStr "2"; VStr "-1"; VNum (Num.of_Z 3)])
                          sample_store)))
       <-> In r (rows sample_store) /\ ~ In (row_id r) [2; 3].
Proof.
  split; [ | split].
  - refine (proj1 (batch_delete_bounds 0 (repeat (VStr "5") 101)
                     (repeat (Num.of_Z 5) 101) sample_store _) _).
    + vm_compute. reflexivity.
    + vm_compute. lia.
  - refine (proj1 (proj2 (batch_delete_bounds 0 [VStr "x"; VNum (Num.of_Z 0)]
                            [NaN; Num.of_Z 0] sample_store _)) _ _).
    + vm_compute. reflexivity.
    + discriminate.
    + vm_compute. reflexivity.
  - refine (proj2 (proj2 (proj2 (proj2 (batch_delete_bounds 0
              [VStr "2"; VStr "-1"; VNum (Num.of_Z 3)]
              [Num.of_Z 2; Fin (-1 # 1); Num.of_Z 3] sample_store _))
              [2; 3] _ _))).
    + vm_compute. reflexivity.
    + repeat constructor; unfold Num.max_exact; lia.
    + simpl. lia.
Defined.

(** One hundred ids: the statement is sent and the rows are removed. *)
Example batch_of_one_hundred :
  map row_id
      (rows (snd (batch_delete 0
                    (VArr (VStr "3" :: repeat (VStr "2") 99)) sample_store)))
  = [1].
Proof. vm_compute. reflexivity. Qed.

(** An empty array is refused with "ids required". *)
Example batch_of_none :
  batch_delete 0 (VArr []) sample_store = (bad "ids required", sample_store).
Proof. reflexivity. Qed.

(** C5 as stated fails: the text [Infinity] coerces to a number above
    [0], so one hundred such entries are one hundred kept ids; the DELETE
    is sent with them, the engine refuses it, the request ends in the 500
    answer and no row is removed. *)
Lemma infinite_ids_counterexample :
  safe_ids (repeat (VStr "Infinity") 100) = Ok (repeat PosInf 100)
  /\ List.length (repeat PosInf 100) = 100%nat
  /\ batch_delete 0 (VArr (repeat (VStr "Infinity") 100)) sample_store
     = (server_error,
        mkStore (rows sample_store) 4 [DeleteIn (repeat PosInf 100)]).
Proof. vm_compute. repeat split. Qed.

(* ------------------------------------------------------------------ *)
(** ** Statements that rewrite rows *)

Lemma Forall2_update_where
  (R : Notice -> Notice -> Prop) (f : Notice -> bool) (g : Notice -> Notice)
  (t : list Notice) :
  (forall r, In r t -> R r (if f r then g r else r)) ->
  Forall2 R t (Db.update_where f g t).
Proof.
  unfold Db.update_where. induction t as [ | r t IH ]; intros H; simpl.
  - constructor.
  - constructor.
    + apply H. now left.
    + apply IH. intros r' Hr'. apply H. now right.
Qed.

Lemma Forall2_same (R : Notice -> Notice -> Prop) (t : list Notice) :
  (forall r, In r t -> R r r) -> Forall2 R t t.
Proof.
  induction t as [ | r t IH ]; intros H; constructor.
  - apply H. now left.
  - apply IH. intros r' Hr'. apply H. now right.
Qed.

Lemma update_where_none
  (f : Notice -> bool) (g : Notice -> Notice) (t : list Notice) :
  (forall r, In r t -> f r = false) -> Db.update_where f g t = t.
Proof.
  unfold Db.update_where. induction t as [ | r t IH ]; intros H; simpl.
  - reflexivity.
  - rewrite (H r (or_introl eq_refl)). f_equal.
    apply IH. intros r' Hr'. apply H. now right.
Qed.

Lemma count_none (f : Notice -> bool) (t : list Notice) :
  (forall r, In r t -> f r = false) -> Db.count f t = 0.
Proof.
  unfold Db.count. induction t as [ | r t IH ]; intros H; simpl.
  - reflexivity.
  - rewrite (H r (or_introl eq_refl)). apply IH.
    intros r' Hr'. apply H. now right.
Qed.

(** No row has the id: the condition [WHERE id=?] holds of no row. *)
Lemma where_id_none (n : number) (z : Z) (t : list Notice) :
  Num.to_Z n = Some z -> (forall r, In r t -> row_id r <> z) ->
  forall r, In r t -> Db.where_id n r = false.
Proof.
  intros Hn H r Hr. rewrite (where_id_of_id n z r Hn).
  apply Z.eqb_neq. intros E. now apply (H r Hr).
Qed.

Lemma update_notice_valid
  (xss : string -> string) (now : Z) (id : string) (z : Z) (body : Body)
  (st : Store) (s1 s2 : string) :
  addresses id z ->
  body_title body = VStr s1 -> body_content body = VStr s2 ->
  validateTitle (VStr (xss (Str.trim s1))) = Ok None ->
  validateContent (VStr (xss (Str.trim s2))) = Ok None ->
  update_notice xss now id body st
  = (ok DataTrue,
     mkStore (Db.update_where
                (Db.where_id (NumStr.StringToNumber id))
                (fun r => Db.touch now
                            (Db.set_text (VStr (xss (Str.trim s1)))
                                         (VStr (xss (Str.trim s2)))
                                         (delta_param (body_content_delta body)) r))
                (rows st))
             (next_id st)
             (log st ++ [UpdateNotice (VStr (xss (Str.trim s1)))
                                      (VStr (xss (Str.trim s2)))
                                      (delta_param (body_content_delta body))
                                      (NumStr.StringToNumber id)])).
Proof.
  intros Hid E1 E2 Ht Hc. destruct (is_id_valid id z Hid) as [Hv Hf].
  unfold update_notice. rewrite Hv, E1, E2. cbn [sanitizeInput].
  rewrite Ht, Hc, query_eq. cbn [Db.run Db.is_text Js.is_string andb].
  rewrite Hf. reflexivity.
Qed.

(** C8 (as amended): for an id that is a positive integer (up to [2^53])
    and a title and a content that are strings and pass their validators
    once sanitised, update answers success; every row keeps its id,
    status, publish time and creation time; the row with this id gets the
    sanitised title, the sanitised content and the delta of the request,
    and every other row is unchanged.  When no row has the id, the table
    is unchanged, the statement affects zero rows and the answer is
    success all the same. *)
Theorem update_rewrites_text_only
  (xss : string -> string) (now : Z) (id : string) (z : Z) (body : Body)
  (st : Store) (s1 s2 : string) :
  addresses id z ->
  body_title body = VStr s1 -> body_content body = VStr s2 ->
  validateTitle (VStr (xss (Str.trim s1))) = Ok None ->
  validateContent (VStr (xss (Str.trim s2))) = Ok None ->
  success (fst (update_notice xss now id body st)) DataTrue
  /\ next_id (snd (update_notice xss now id body st)) = next_id st
  /\ Forall2
       (fun old new =>
          row_id new = row_id old
          /\ row_status new = row_status old
          /\ row_publish_time new = row_publish_time old
          /\ row_created_at new = row_created_at old
          /\ (row_id old = z ->
              row_title new = VStr (xss (Str.trim s1))
              /\ row_content new = VStr (xss (Str.trim s2))
              /\ row_content_delta new = delta_param (body_content_delta body))
          /\ (row_id old <> z -> new = old))
       (rows st) (rows (snd (update_notice xss now id body st)))
  /\ ((forall r, In r (rows st) -> row_id r <> z) ->
      rows (snd (update_notice xss now id body st)) = rows st
      /\ fst (fst (Db.run now
                     (UpdateNotice (VStr (xss (Str.trim s1)))
                                   (VStr (xss (Str.trim s2)))
                                   (delta_param (body_content_delta body))
                                   (NumStr.StringToNumber id))
                     (rows st) (next_id st)))
         = Ok (Affected 0)).
Proof.
  intros Hid E1 E2 Ht Hc.
  rewrite (update_notice_valid xss now id z body st s1 s2 Hid E1 E2 Ht Hc).
  cbn [fst snd rows next_id].
  destruct (is_id_valid id z Hid) as [_ Hf]. destruct Hid as [Hn _].
  split; [repeat split | ]. split; [reflexivity | ]. split.
  - apply Forall2_update_where. intros r _.
    rewrite (where_id_of_id _ z r Hn).
    destruct (Z.eqb_spec z (row_id r)) as [E | N]; cbn;
      repeat split; auto; congruence.
  - intros H. pose proof (where_id_none _ z _ Hn H) as Hw. split.
    + now apply update_where_none.
    + cbn [Db.run Db.is_text Js.is_string andb]. rewrite Hf. cbn [fst].
      now rewrite count_none.
Qed.

Lemma update_rewrites_text_only_witness :
  Forall2
    (fun old new =>
       row_id new = row_id old
       /\ row_status new = row_status old
       /\ row_publish_time new = row_publish_time old
       /\ row_created_at new = row_created_at old
       /\ (row_id old = 2 ->
           row_title new = VStr "new title"
           /\ row_content new = VStr "new text"
           /\ row_content_delta new = Some "{}")
       /\ (row_id old <> 2 -> new = old))
    (rows sample_store)
    (rows (snd (update_notice xss_text 900 "2"
                  (mkBody (VStr " new title ") (VStr "new text") (Some "{}"))
                  sample_store))).
Proof.
  refine (proj1 (proj2 (proj2 (update_rewrites_text_only xss_text 900 "2" 2
            (mkBody (VStr " new title ") (VStr "new text") (Some "{}"))
            sample_store " new title " "new text" _ eq_refl eq_refl
            eq_refl eq_refl)))).
  split; [reflexivity | unfold Num.max_exact; lia].
Defined.

Example update_second_row :
  update_notice xss_text 900 "2"
                (mkBody (VStr " new title ") (VStr "new text") (Some "{}"))
                sample_store
  = (ok DataTrue,
     mkStore
       [ mkNotice 1 (VStr "first") (VStr "one") None draft None 100 100;
         mkNotice 2 (VStr "new title") (VStr "new text") (Some "{}")
                  published (Some 250) 200 900;
         mkNotice 3 (VStr "third") (VStr "three") None draft None 300 300 ]
       4
       [UpdateNotice (VStr "new title") (VStr "new text") (Some "{}") (Num.of_Z 2)]).
Proof. vm_compute. reflexivity. Qed.

Example update_missing_row :
  update_notice xss_text 900 "7" (mkBody (VStr "t") (VStr "c") None) sample_store
  = (ok DataTrue,
     mkStore (rows sample_store) 4
             [UpdateNotice (VStr "t") (VStr "c") None (Num.of_Z 7)]).
Proof. vm_compute. reflexivity. Qed.

(** C8 as stated fails.  The id [Infinity] passes [validateId] and
    addresses no row, but the update does not report success: the engine
    refuses the statement and the request ends in the 500 answer.  And a
    title that is an array of two items passes [validateTitle], but the
    statement written with it is refused as well. *)
Lemma unbounded_id_counterexample :
  validateId "Infinity" = None
  /\ validateTitle (sanitizeInput xss_text (VStr "t")) = Ok None
  /\ validateContent (sanitizeInput xss_text (VStr "c")) = Ok None
  /\ update_notice xss_text 5 "Infinity" (mkBody (VStr "t") (VStr "c") None)
                   sample_store
     = (server_error,
        mkStore (rows sample_store) 4
                [UpdateNotice (VStr "t") (VStr "c") None PosInf])
  /\ validateTitle
       (sanitizeInput xss_text (VArr [VNum (Num.of_Z 1); VNum (Num.of_Z 2)]))
     = Ok None
  /\ update_notice xss_text 5 "1"
                   (mkBody (VArr [VNum (Num.of_Z 1); VNum (Num.of_Z 2)])
                           (VStr "c") None)
                   sample_store
     = (server_error,
        mkStore (rows sample_store) 4
                [UpdateNotice (VArr [VNum (Num.of_Z 1); VNum (Num.of_Z 2)])
                              (VStr "c") None (Num.of_Z 1)]).
Proof. vm_compute. repeat split. Qed.

(* ------------------------------------------------------------------ *)
(** ** Publishing, and the direction of the status *)


Lemma In_update_where
  (f : Notice -> bool) (g : Notice -> Notice) (t : list Notice) (b : Notice) :
  In b (Db.update_where f g t) ->
  exists a, In a t /\ b = (if f a then g a else a).
Proof.
  unfold Db.update_where. rewrite in_map_iff.
  intros [a [E H]]. exists a. split; [exact H | now symmetry].
Qed.



Lemma select_keeps_table (now : Z) (q : query) (st : Store) :
  match q with
  | SelectPage _ _ _ | SelectCount _ | SelectById _ => True
  | _ => False
  end ->
  rows (snd (Db.query now q st)) = rows st
  /\ next_id (snd (Db.query now q st)) = next_id st.
Proof.
  rewrite query_eq. cbn [snd rows next_id].
  destruct q; cbn [Db.run fst snd]; intros H; try contradiction; auto.
  - destruct (Db.row_count limit), (Db.row_count offset); auto.
  - destruct (Num.finite id); auto.
Qed.

(** The list only reads. *)
Lemma list_notices_rows
  (now : Z) (page_q size_q status_q : option string) (st : Store) :
  rows (snd (list_notices now page_q size_q status_q st)) = rows st
  /\ next_id (snd (list_notices now page_q size_q status_q st)) = next_id st.
Proof.
  unfold list_notices.
  destruct (_ || _ || _); [split; reflexivity | ].
  destruct (_ && _); [split; reflexivity | ].
  match goal with
  | |- context [Db.query ?n (SelectPage ?w ?l ?o) ?s] =>
      pose proof (select_keeps_table n (SelectPage w l o) s I) as [H1 H2];
      destruct (Db.query n (SelectPage w l o) s) as [[[ | | | | ] | ] st1]
  end; cbn [snd] in *; auto.
Qed.




(** *** The invariant of the store *)

Lemma ids_update_where
  (f : Notice -> bool) (g : Notice -> Notice) (t : list Notice) :
  (forall r, row_id (g r) = row_id r) ->
  map row_id (Db.update_where f g t) = map row_id t.
Proof.
  intros Hg. unfold Db.update_where. rewrite map_map. apply map_ext.
  intros r. destruct (f r); [apply Hg | reflexivity].
Qed.


Lemma Forall_filter (P : Notice -> Prop) (f : Notice -> bool) (t : list Notice) :
  Forall P t -> Forall P (filter f t).
Proof.
  rewrite !Forall_forall. intros H r Hr. apply filter_In in Hr. now apply H.
Qed.

Lemma Forall_update_where
  (P : Notice -> Prop) (f : Notice -> bool) (g : Notice -> Notice)
  (t : list Notice) :
  (forall r, P r -> P (g r)) -> Forall P t -> Forall P (Db.update_where f g t).
Proof.
  intros Hg. rewrite !Forall_forall. intros H b Hb.
  apply In_update_where in Hb. destruct Hb as [a [Ha ->]].
  destruct (f a); auto.
Qed.






Lemma publish_notice_valid (now : Z) (id : string) (z : Z) (st : Store) :
  addresses id z ->
  publish_notice now id st
  = (ok DataTrue,
     mkStore (Db.update_where (Db.where_id (NumStr.StringToNumber id))
                              (fun r => Db.touch now (Db.set_published now r))
                              (rows st))
             (next_id st)
             (log st ++ [PublishNotice (NumStr.StringToNumber id)])).
Proof.
  intros Hid. destruct (is_id_valid id z Hid) as [Hv Hf].
  unfold publish_notice. rewrite Hv, query_eq. cbn [Db.run].
  rewrite Hf. reflexivity.
Qed.


Lemma sample_store_ok : Store_ok sample_store.
Proof.
  split.
  - simpl. repeat constructor; simpl; intuition discriminate.
  - simpl. repeat constructor.
Defined.


Example publish_once :
  publish_notice 900 "1" sample_store
  = (ok DataTrue,
     mkStore
       [ mkNotice 1 (VStr "first") (VStr "one") None published (Some 900) 100 900;
         mkNotice 2 (VStr "second") (VStr "two") (Some "{}") published (Some 250) 200 250;
         mkNotice 3 (VStr "third") (VStr "three") None draft None 300 300 ]
       4 [PublishNotice (Num.of_Z 1)]).
Proof. vm_compute. reflexivity. Qed.

Example publish_twice :
  map (fun r => (row_id r, row_status r, row_publish_time r))
      (rows (snd (publish_notice 950 "1" (snd (publish_notice 900 "1" sample_store)))))
  = [(1, published, Some 950); (2, published, Some 250); (3, draft, None)].
Proof. vm_compute. reflexivity. Qed.

(** Deleting a published notice and creating a new one gives the new
    notice a new id: the draft does not replace the published row. *)
Example delete_then_create :
  map (fun r => (row_id r, row_status r))
      (rows (serve xss_text
                   [(10, DeleteOne "2");
                    (11, Create (mkBody (VStr "again") (VStr "text") None))]
                   sample_store))
  = [(1, draft); (3, draft); (4, draft)].
Proof. vm_compute. reflexivity. Qed.

(* ------------------------------------------------------------------ *)
(** ** The list: filter, order, page and total *)

Lemma row_count_of_Z (z : Z) :
  0 <= z <= Num.max_exact -> Db.row_count (Num.of_Z z) = Some (Z.to_nat z).
Proof.
  intros Hz. unfold Db.row_count. rewrite to_Z_of_Z.
  unfold Num.max_exact, Db.max_row_count in *.
  destruct (Z.leb_spec 0 z); [ | lia].
  destruct (Z.leb_spec z 18446744073709551615); [reflexivity | lia].
Qed.

Lemma row_count_of_size (n : number) (z : Z) :
  Num.to_Z n = Some z -> 0 <= z <= 100 -> Db.row_count n = Some (Z.to_nat z).
Proof.
  intros H Hz. unfold Db.row_count, Db.max_row_count. rewrite H.
  destruct (Z.leb_spec 0 z); [ | lia].
  destruct (Z.leb_spec z 18446744073709551615); [reflexivity | lia].
Qed.

Lemma shows_summary (l : list Notice) : Forall2 shows (map summary l) l.
Proof.
  induction l as [ | r l IH ]; simpl; constructor; [ | exact IH].
  repeat split.
Qed.

Lemma where_status_matches (status : string) :
  filter (Db.where_status (if Str.is_empty status then None else Some status))
  = filter (matches_status status).
Proof.
  unfold matches_status. destruct (Str.is_empty status); reflexivity.
Qed.

Lemma insert_desc_perm (x : Notice) (l : list Notice) :
  Permutation (x :: l) (Db.insert_desc x l).
Proof.
  induction l as [ | y l IH ]; simpl.
  - apply Permutation_refl.
  - destruct (row_created_at y <=? row_created_at x).
    + apply Permutation_refl.
    + eapply perm_trans; [apply perm_swap | ]. now apply perm_skip.
Qed.

Lemma order_by_created_desc_perm (l : list Notice) :
  Permutation (Db.order_by_created_desc l) l.
Proof.
  induction l as [ | x l IH ]; simpl.
  - constructor.
  - eapply perm_trans.
    + apply Permutation_sym, insert_desc_perm.
    + now apply perm_skip.
Qed.

Lemma insert_desc_sorted (x : Notice) (l : list Notice) :
  StronglySorted newer_first l -> StronglySorted newer_first (Db.insert_desc x l).
Proof.
  induction l as [ | y l IH ]; simpl; intros H.
  - repeat constructor.
  - inversion H as [ | y' l' Hl Hy ]; subst.
    destruct (Z.leb_spec (row_created_at y) (row_created_at x)) as [L | L].
    + constructor; [exact H | ]. constructor; [exact L | ].
      eapply Forall_impl; [ | exact Hy]. unfold newer_first. intros z Hz. lia.
    + constructor; [now apply IH | ].
      eapply Permutation_Forall; [apply insert_desc_perm | ].
      constructor; [unfold newer_first; lia | exact Hy].
Qed.

Lemma order_by_created_desc_sorted (l : list Notice) :
  StronglySorted newer_first (Db.order_by_created_desc l).
Proof.
  induction l as [ | x l IH ]; simpl.
  - constructor.
  - now apply insert_desc_sorted.
Qed.

(** What the list answers for a page and a size that are integers. *)
Lemma list_notices_valid
  (now : Z) (page_q size_q status_q : option string) (st : Store) (P S : Z) :
  Num.to_Z (query_number page_q 1) = Some P ->
  Num.to_Z (query_number size_q 10) = Some S ->
  0 < P -> 0 < S <= 100 -> (P - 1) * S <= Num.max_exact ->
  In (Str.trim (match status_q with Some s => s | None => "" end))
     [""; "draft"; "published"] ->
  fst (list_notices now page_q size_q status_q st)
  = ok (DataList
          (map summary
               (firstn (Z.to_nat S)
                       (skipn (Z.to_nat ((P - 1) * S))
                              (matching_sorted
                                 (Str.trim (match status_q with
                                            | Some s => s | None => "" end)) st))))
          (Z.of_nat (List.length
             (filter (matches_status
                        (Str.trim (match status_q with
                                   | Some s => s | None => "" end)))
                     (rows st))))
          (query_number page_q 1) (query_number size_q 10)).
Proof.
  intros Hp Hs HP HS Hb Hf. unfold list_notices, matching_sorted.
  set (status := Str.trim (match status_q with Some s => s | None => "" end)) in *.
  rewrite (le_zero_of_positive _ P Hp HP).
  rewrite (le_zero_of_positive _ S Hs (proj1 HS)).
  rewrite (gt_of_at_most _ S 100 Hs (proj2 HS)).
  cbn [orb].
  rewrite (offset_to_Z _ _ P S Hp Hs HP (proj1 HS) Hb).
  rewrite !query_eq. cbn [Db.run fst snd rows next_id].
  rewrite (row_count_of_size _ S Hs) by lia.
  rewrite row_count_of_Z by nia.
  cbn [fst snd rows]. unfold Db.count. rewrite !where_status_matches.
  destruct Hf as [E | [E | [E | []]]]; rewrite <- E; reflexivity.
Qed.

(** C6 (as amended): for a page and a size that are positive integers,
    the size at most 100 and the offset [(page - 1) * size] at most
    [2^53], and a status filter that is empty, [draft] or [published],
    the list answers success with the rows that match the filter, ordered
    by creation time from the newest, cut to [size] rows from the offset,
    each with its columns, and with the total number of rows that match
    the filter; the table is not changed. *)
Theorem list_returns_sorted_page
  (now : Z) (page_q size_q status_q : option string) (st : Store) (P S : Z) :
  Num.to_Z (query_number page_q 1) = Some P ->
  Num.to_Z (query_number size_q 10) = Some S ->
  0 < P -> 0 < S <= 100 -> (P - 1) * S <= Num.max_exact ->
  In (Str.trim (match status_q with Some s => s | None => "" end))
     [""; "draft"; "published"] ->
  exists (sorted : list Notice) (l : list Summary),
    Permutation sorted
      (filter (matches_status
                 (Str.trim (match status_q with Some s => s | None => "" end)))
              (rows st))
    /\ StronglySorted newer_first sorted
    /\ success (fst (list_notices now page_q size_q status_q st))
               (DataList l
                  (Z.of_nat (List.length
                     (filter (matches_status
                                (Str.trim (match status_q with
                                           | Some s => s | None => "" end)))
                             (rows st))))
                  (query_number page_q 1) (query_number size_q 10))
    /\ Forall2 shows l
         (firstn (Z.to_nat S) (skipn (Z.to_nat ((P - 1) * S)) sorted))
    /\ (List.length l <= Z.to_nat S)%nat
    /\ rows (snd (list_notices now page_q size_q status_q st)) = rows st.
Proof.
  intros Hp Hs HP HS Hb Hf.
  set (status := Str.trim (match status_q with Some s => s | None => "" end)) in *.
  exists (matching_sorted status st).
  exists (map summary
            (firstn (Z.to_nat S)
                    (skipn (Z.to_nat ((P - 1) * S)) (matching_sorted status st)))).
  split; [apply order_by_created_desc_perm | ].
  split; [apply order_by_created_desc_sorted | ].
  split; [ | split; [apply shows_summary | split ] ].
  - rewrite (list_notices_valid now page_q size_q status_q st P S Hp Hs HP HS Hb Hf).
    fold status. repeat split.
  - rewrite length_map. apply firstn_le_length.
  - apply list_notices_rows.
Qed.

Lemma list_returns_sorted_page_witness :
  exists (sorted : list Notice) (l : list Summary),
    Permutation sorted (rows sample_store)
    /\ StronglySorted newer_first sorted
    /\ data (fst (list_notices 0 (Some "2") (Some "2") None sample_store))
       = DataList l 3 (Num.of_Z 2) (Num.of_Z 2)
    /\ Forall2 shows l (firstn 2 (skipn 2 sorted)).
Proof.
  destruct (list_returns_sorted_page 0 (Some "2") (Some "2") None sample_store 2 2
              eq_refl eq_refl) as [sorted [l [Hperm [Hs [[_ [_ Hd]] [Hl _]]]]]].
  - lia.
  - lia.
  - unfold Num.max_exact. lia.
  - simpl. auto.
  - exists sorted, l. repeat split; assumption.
Defined.

Example list_second_page :
  fst (list_notices 0 (Some "2") (Some "2") None sample_store)
  = ok (DataList [mkSummary 1 (VStr "first") (VStr "one") draft None 100 100]
                 3 (Num.of_Z 2) (Num.of_Z 2)).
Proof. vm_compute. reflexivity. Qed.

(** C6 as stated fails: the page [1.5] and the size [1] pass the bounds
    check (the page is above [0], the size is between [1] and [100]), the
    offset is one half, the engine refuses the statement and the request
    ends in the 500 answer instead of a list. *)
Lemma fractional_page_counterexample :
  Num.le (query_number (Some "1.5") 1) (Num.of_Z 0) = false
  /\ Num.le (query_number (Some "1") 10) (Num.of_Z 0) = false
  /\ Num.gt (query_number (Some "1") 10) (Num.of_Z 100) = false
  /\ list_notices 0 (Some "1.5") (Some "1") None sample_store
     = (server_error,
        mkStore (rows sample_store) 4
                [SelectPage None (Num.of_Z 1) (Fin (1 # 2))]).
Proof. vm_compute. repeat split. Qed.

(* ------------------------------------------------------------------ *)
(** ** The stored name keeps an accepted extension *)

Lemma list_of_append (a b : string) :
  list_ascii_of_string (a ++ b)
  = (list_ascii_of_string a ++ list_ascii_of_string b)%list.
Proof. induction a as [ | c a IH ]; simpl; [reflexivity | now rewrite IH]. Qed.

Lemma drop_slashes_plain (c : ascii) (l : list ascii) :
  Path.is_slash c = false -> Path.drop_slashes (c :: l) = c :: l.
Proof. simpl. now intros ->. Qed.

Lemma until_slash_plain (l : list ascii) :
  forallb (fun c => negb (Path.is_slash c)) l = true -> Path.until_slash l = l.
Proof.
  induction l as [ | c l IH ]; simpl; [reflexivity | ].
  rewrite andb_true_iff, negb_true_iff. intros [-> H]. now rewrite IH.
Qed.

Lemma until_slash_no_slash (l : list ascii) :
  forallb (fun c => negb (Path.is_slash c)) (Path.until_slash l) = true.
Proof.
  induction l as [ | c l IH ]; simpl; [reflexivity | ].
  destruct (Path.is_slash c) eqn:E; simpl; [reflexivity | ].
  now rewrite E, IH.
Qed.

(** What [split_dot] returns: the list is cut at its first dot. *)
Lemma split_dot_spec (r a b : list ascii) :
  Path.split_dot r = Some (a, b) ->
  r = (a ++ "."%char :: b)%list
  /\ forallb (fun c => negb (Path.is_dot c)) a = true.
Proof.
  revert a b. induction r as [ | c r IH ]; simpl; intros a b H; [discriminate | ].
  destruct (Path.is_dot c) eqn:E.
  - injection H as <- <-. unfold Path.is_dot in E.
    apply Ascii.eqb_eq in E. subst c. split; reflexivity.
  - destruct (Path.split_dot r) as [[a' b'] | ]; [ | discriminate].
    injection H as <- <-. destruct (IH a' b' eq_refl) as [-> Ha].
    split; [reflexivity | ]. simpl. now rewrite E, Ha.
Qed.

Lemma split_dot_first (a b : list ascii) :
  forallb (fun c => negb (Path.is_dot c)) a = true ->
  Path.split_dot (a ++ "."%char :: b) = Some (a, b).
Proof.
  induction a as [ | c a IH ]; simpl; [reflexivity | ].
  rewrite andb_true_iff, negb_true_iff. intros [-> H]. now rewrite IH.
Qed.

Lemma forallb_plain (l : list ascii) :
  forallb Path.plain l = true <->
  forallb (fun c => negb (Path.is_dot c)) l = true
  /\ forallb (fun c => negb (Path.is_slash c)) l = true.
Proof.
  induction l as [ | c l IH ]; simpl; [tauto | ].
  unfold Path.plain at 1. rewrite !andb_true_iff, IH. tauto.
Qed.

(** The extension is empty, or a dot followed by plain characters. *)
Lemma extname_shape (p : string) :
  Path.extname p = ""
  \/ exists body, forallb Path.plain body = true
                  /\ Path.extname p = string_of_list_ascii ("."%char :: body).
Proof.
  unfold Path.extname.
  destruct (Path.split_dot (Path.last_part_rev p)) as [[a b] | ] eqn:E;
    [ | now left].
  destruct (Path.is_nil b || Path.is_dotdot a b); [now left | right].
  exists (rev a). split; [ | reflexivity].
  apply split_dot_spec in E. destruct E as [E Ha].
  apply forallb_plain. rewrite !forallb_forall in *.
  split; intros c Hc; apply in_rev in Hc; [now apply Ha | ].
  pose proof (until_slash_no_slash
                (Path.drop_slashes (rev (list_ascii_of_string p)))) as Hs.
  fold (Path.last_part_rev p) in Hs. rewrite E, forallb_forall in Hs.
  apply Hs, in_or_app. now left.
Qed.

(** A plain, non-empty stem followed by a dot and plain characters has
    these as its extension. *)
Lemma extname_of_stem (stem body : list ascii) :
  stem <> [] -> forallb Path.plain stem = true -> forallb Path.plain body = true ->
  Path.extname (string_of_list_ascii (stem ++ "."%char :: body))
  = string_of_list_ascii ("."%char :: body).
Proof.
  intros Hne Hstem Hbody.
  apply forallb_plain in Hstem, Hbody.
  destruct Hstem as [Sd Ss], Hbody as [Bd Bs].
  unfold Path.extname, Path.last_part_rev.
  rewrite list_ascii_of_string_of_list_ascii, rev_app_distr. simpl rev.
  rewrite <- app_assoc. simpl app.
  assert (Hr : forall l, forallb (fun c => negb (Path.is_slash c)) l = true ->
                         forallb (fun c => negb (Path.is_slash c)) (rev l) = true).
  { intros l H. rewrite forallb_forall in *. intros c Hc. apply H.
    now apply in_rev. }
  assert (Hd : forall l, forallb (fun c => negb (Path.is_dot c)) l = true ->
                         forallb (fun c => negb (Path.is_dot c)) (rev l) = true).
  { intros l H. rewrite forallb_forall in *. intros c Hc. apply H.
    now apply in_rev. }
  assert (Hall : forallb (fun c => negb (Path.is_slash c))
                         (rev body ++ "."%char :: rev stem) = true).
  { rewrite forallb_app. rewrite (Hr _ Bs). simpl. now apply Hr. }
  assert (Hdrop : Path.drop_slashes (rev body ++ "."%char :: rev stem)
                  = (rev body ++ "."%char :: rev stem)%list).
  { destruct (rev body ++ "."%char :: rev stem)%list as [ | c l ] eqn:El;
      [reflexivity | ].
    apply drop_slashes_plain. simpl in Hall.
    apply andb_true_iff in Hall. now apply negb_true_iff, Hall. }
  rewrite Hdrop, (until_slash_plain _ Hall), (split_dot_first _ _ (Hd _ Bd)).
  destruct (rev stem) as [ | c r ] eqn:Er.
  - exfalso. apply Hne. apply (f_equal (@rev ascii)) in Er.
    now rewrite rev_involutive in Er.
  - assert (Hc : Path.is_dot c = false).
    { pose proof (Hd _ Sd) as H. rewrite Er in H. simpl in H.
      apply andb_true_iff in H. now apply negb_true_iff, H. }
    assert (Hdd : Path.is_dotdot (rev body) (c :: r) = false).
    { unfold Path.is_dotdot. destruct r; [ | reflexivity].
      now destruct (rev body). }
    cbn [Path.is_nil orb]. rewrite Hdd. now rewrite rev_involutive.
Qed.

Lemma lower_char_plain (c : ascii) :
  Path.plain (Str.lower_char c) = Path.plain c.
Proof. destruct c as [[] [] [] [] [] [] [] []]; reflexivity. Qed.

Lemma lower_char_idem (c : ascii) :
  Str.lower_char (Str.lower_char c) = Str.lower_char c.
Proof. destruct c as [[] [] [] [] [] [] [] []]; reflexivity. Qed.

Lemma toLowerCase_idem (s : string) :
  Str.toLowerCase (Str.toLowerCase s) = Str.toLowerCase s.
Proof.
  induction s as [ | c s IH ]; simpl; [reflexivity | ].
  now rewrite lower_char_idem, IH.
Qed.

Lemma toLowerCase_list (l : list ascii) :
  Str.toLowerCase (string_of_list_ascii l)
  = string_of_list_ascii (map Str.lower_char l).
Proof. induction l as [ | c l IH ]; simpl; [reflexivity | now rewrite IH]. Qed.

Lemma forallb_plain_lower (l : list ascii) :
  forallb Path.plain l = true -> forallb Path.plain (map Str.lower_char l) = true.
Proof.
  induction l as [ | c l IH ]; simpl; [reflexivity | ].
  rewrite lower_char_plain, !andb_true_iff. intros [-> H]. auto.
Qed.

Lemma string_of_uint_plain (d : Decimal.uint) :
  forallb Path.plain (list_ascii_of_string (DecimalString.NilEmpty.string_of_uint d))
  = true.
Proof. induction d; simpl; auto. Qed.

Lemma Z_to_string_plain (z : Z) :
  forallb Path.plain (list_ascii_of_string (Z_to_string z)) = true.
Proof.
  unfold Z_to_string, DecimalString.NilZero.string_of_int,
    DecimalString.NilZero.string_of_uint.
  destruct (Z.to_int z) as [d | d]; destruct d;
    try reflexivity; simpl; try apply string_of_uint_plain.
Qed.

Lemma hex_char_plain (d : Z) : Path.plain (hex_char d) = true.
Proof.
  unfold hex_char. generalize (Z.to_nat (d mod 16)). intros n.
  do 17 (destruct n as [ | n]; [reflexivity | ]). reflexivity.
Qed.

Lemma random_token_plain (digits : list Z) :
  forallb Path.plain (list_ascii_of_string (random_token digits)) = true.
Proof.
  unfold random_token. rewrite list_ascii_of_string_of_list_ascii.
  induction digits as [ | d l IH ]; simpl; [reflexivity | ].
  now rewrite hex_char_plain, IH.
Qed.

(** The stored name of a file whose extension is a dot and plain
    characters: a plain stem, then the extension in lower case. *)
Lemma filename_extension (env : UploadEnv) (f : File) (body : list ascii) :
  forallb Path.plain body = true ->
  Path.extname (originalname f) = string_of_list_ascii ("."%char :: body) ->
  Path.extname (filename env f)
  = Str.toLowerCase (Path.extname (originalname f)).
Proof.
  intros Hb He. unfold filename. rewrite He, toLowerCase_list.
  cbn [map]. replace (Str.lower_char ".") with "."%char by reflexivity.
  set (stem := (list_ascii_of_string (Z_to_string (date_now env))
                ++ "_"%char :: list_ascii_of_string (random_token (random_digits env)))%list).
  replace (Z_to_string (date_now env) ++ "_" ++ random_token (random_digits env)
           ++ string_of_list_ascii ("."%char :: map Str.lower_char body))%string
    with (string_of_list_ascii (stem ++ "."%char :: map Str.lower_char body)).
  - apply extname_of_stem.
    + unfold stem. now destruct (list_ascii_of_string (Z_to_string (date_now env))).
    + unfold stem. rewrite forallb_app, Z_to_string_plain. simpl.
      apply random_token_plain.
    + now apply forallb_plain_lower.
  - rewrite <- (string_of_list_ascii_of_string
                  (Z_to_string (date_now env) ++ "_" ++ random_token (random_digits env)
                   ++ string_of_list_ascii ("."%char :: map Str.lower_char body))).
    f_equal. rewrite !list_of_append, list_ascii_of_string_of_list_ascii.
    unfold stem. rewrite <- app_assoc. reflexivity.
Qed.

Lemma fileFilter_accepted (f : File) :
  fileFilter f = CbValue true ->
  allowedFileTypes (Str.toLowerCase (Path.extname (originalname f))) = true.
Proof.
  unfold fileFilter.
  destruct (allowedFileTypes (Str.toLowerCase (Path.extname (originalname f))));
    [reflexivity | discriminate].
Qed.

(** C9: for a file the filter accepts, the stored name (the timestamp, an
    underscore, the random token, the lower-cased extension of the
    original name) has that lower-cased extension as its own extension,
    which passes the second check.  So the upload never takes the branch
    that deletes the file: it answers "File too large" with the directory
    as it was, or success with the file kept in the directory. *)
Theorem accepted_upload_is_kept (env : UploadEnv) (f : File) (fs : list string) :
  fileFilter f = CbValue true ->
  Path.extname (filename env f)
  = Str.toLowerCase (Path.extname (originalname f))
  /\ allowedFileTypes (Str.toLowerCase (Path.extname (filename env f))) = true
  /\ (upload env (Some f) fs
      = (bad "File too large. Maximum size is 5MB.", fs)
      \/ upload env (Some f) fs
         = (ok (DataUrl ("http://" ++ host env ++ "/uploads/" ++ filename env f)),
            filename env f :: fs))
  /\ (size f <= fileSize_limit -> In (filename env f) (snd (upload env (Some f) fs))).
Proof.
  intros Hf. pose proof (fileFilter_accepted f Hf) as Ha.
  assert (He : Path.extname (filename env f)
               = Str.toLowerCase (Path.extname (originalname f))).
  { destruct (extname_shape (originalname f)) as [E | [body [Hb E]]].
    - rewrite E in Ha. discriminate Ha.
    - now apply (filename_extension env f body). }
  assert (Hr : allowedFileTypes (Str.toLowerCase (Path.extname (filename env f)))
               = true).
  { now rewrite He, toLowerCase_idem. }
  split; [exact He | ]. split; [exact Hr | ].
  assert (Hd : destination f = CbValue uploadDir).
  { unfold destination. now rewrite Ha. }
  unfold upload. rewrite Hf, Hd, Hr. cbn [negb].
  destruct (Z.ltb_spec fileSize_limit (size f)); split; auto.
  - lia.
  - intros _. now left.
Qed.

Lemma accepted_upload_is_kept_witness :
  allowedFileTypes
    (Str.toLowerCase
       (Path.extname
          (filename (mkUploadEnv 1700000000000 [10; 3; 15] "127.0.0.1:3000")
                    (mkFile "Cat.PNG" 1024)))) = true.
Proof.
  exact (proj1 (proj2 (accepted_upload_is_kept
                         (mkUploadEnv 1700000000000 [10; 3; 15] "127.0.0.1:3000")
                         (mkFile "Cat.PNG" 1024) [] eq_refl))).
Defined.

(* ================================================================== *)
(** * Further properties of the handlers *)

(* ------------------------------------------------------------------ *)
(** ** Required fields and the length of the content *)

Lemma validateContent_long (t : string) :
  50000 < Str.len t ->
  validateContent (VStr t)
  = Ok (Some "Content is too long (max 50000 characters)").
Proof.
  intros H. unfold validateContent. simpl Js.truthy.
  destruct (Str.is_empty t) eqn:E.
  - apply is_empty_length in E. unfold Str.len in H. rewrite E in H.
    discriminate H.
  - cbn [negb Js.get_length bind Js.gt_number Js.ToNumber].
    rewrite gt_of_Z.
    destruct (Z.ltb_spec 50000 (Str.len t)); [reflexivity | lia].
Qed.

(** X1: when the title passes its validator and the sanitised content is
    a string of more than 50000 characters, create answers "Content is
    too long (max 50000 characters)" and so does update for an id that
    passes [validateId]; the store is left as it was. *)
Theorem long_content_rejected
  (xss : string -> string) (now : Z) (id : string) (body : Body)
  (st : Store) (s : string) :
  validateTitle (sanitizeInput xss (body_title body)) = Ok None ->
  body_content body = VStr s ->
  50000 < Str.len (xss (Str.trim s)) ->
  create_notice xss now body st
  = (bad "Content is too long (max 50000 characters)", st)
  /\ (validateId id = None ->
      update_notice xss now id body st
      = (bad "Content is too long (max 50000 characters)", st)).
Proof.
  intros Ht Hc Hl. unfold create_notice, update_notice.
  rewrite Ht, Hc. cbn [sanitizeInput]. rewrite (validateContent_long _ Hl).
  split; [reflexivity | intros ->; reflexivity].
Qed.

Lemma long_content_rejected_witness :
  create_notice xss_text 5 (mkBody (VStr "t") (VStr (letters (Z.to_nat 50001))) None)
                sample_store
  = (bad "Content is too long (max 50000 characters)", sample_store).
Proof.
  assert (Hl : 50000 < Str.len (xss_text (Str.trim (letters (Z.to_nat 50001))))).
  { apply Z.ltb_lt. vm_compute. reflexivity. }
  exact (proj1 (long_content_rejected xss_text 5 "2"
                  (mkBody (VStr "t") (VStr (letters (Z.to_nat 50001))) None)
                  sample_store (letters (Z.to_nat 50001)) eq_refl eq_refl Hl)).
Defined.

Lemma blank_is_falsy (xss : string -> string) (v : value) :
  xss "" = "" -> blank v -> Js.truthy (sanitizeInput xss v) = false.
Proof.
  intros Hx [-> | [-> | [-> | [s [-> Hs]]]]]; try reflexivity.
  cbn [sanitizeInput]. rewrite Hs, Hx. reflexivity.
Qed.

(** X2: with a filter that maps the empty text to itself, a title that is
    absent, [null], [false] or only white space makes create answer
    "Title is required", whatever the content; with a valid title, such a
    content makes it answer "Content is required"; update does the same
    for an id that passes [validateId].  The store is left as it was. *)
Theorem blank_fields_rejected
  (xss : string -> string) (now : Z) (id : string) (body : Body) (st : Store) :
  xss "" = "" ->
  (blank (body_title body) ->
   create_notice xss now body st = (bad "Title is required", st)
   /\ (validateId id = None ->
       update_notice xss now id body st = (bad "Title is required", st)))
  /\ (validateTitle (sanitizeInput xss (body_title body)) = Ok None ->
      blank (body_content body) ->
      create_notice xss now body st = (bad "Content is required", st)
      /\ (validateId id = None ->
          update_notice xss now id body st = (bad "Content is required", st))).
Proof.
  intros Hx. split.
  - intros Hb. pose proof (blank_is_falsy xss _ Hx Hb) as Hf.
    unfold create_notice, update_notice, validateTitle. rewrite Hf.
    split; [reflexivity | intros ->; reflexivity].
  - intros Ht Hb. pose proof (blank_is_falsy xss _ Hx Hb) as Hf.
    unfold create_notice, update_notice. rewrite Ht.
    unfold validateContent. rewrite Hf.
    split; [reflexivity | intros ->; reflexivity].
Qed.

Lemma blank_fields_rejected_witness :
  create_notice xss_text 5 (mkBody (VStr (spaces 4)) (VStr "c") None) sample_store
  = (bad "Title is required", sample_store)
  /\ create_notice xss_text 5 (mkBody (VStr "t") VUndefined None) sample_store
     = (bad "Content is required", sample_store).
Proof.
  pose proof (blank_fields_rejected xss_text 5 "2"
                (mkBody (VStr (spaces 4)) (VStr "c") None) sample_store eq_refl)
    as [H1 _].
  pose proof (blank_fields_rejected xss_text 5 "2"
                (mkBody (VStr "t") VUndefined None) sample_store eq_refl)
    as [_ H2].
  split.
  - refine (proj1 (H1 _)). right; right; right.
    exists (spaces 4). split; reflexivity.
  - refine (proj1 (H2 eq_refl _)). left; reflexivity.
Defined.

(* ------------------------------------------------------------------ *)
(** ** The envelope, and what a refusal leaves behind *)

Ltac split_handler :=
  repeat match goal with
         | |- context [match validateId ?i with _ => _ end] =>
             destruct (validateId i)
         | |- context [match validateTitle ?v with _ => _ end] =>
             destruct (validateTitle v) as [[ | ] | ]
         | |- context [match validateContent ?v with _ => _ end] =>
             destruct (validateContent v) as [[ | ] | ]
         | |- context [match safe_ids ?l with _ => _ end] =>
             destruct (safe_ids l)
         | |- context [if ?c then _ else _] => destruct c
         end.

(** X3: every answer of a notice handler and of the upload is one of the
    three envelopes of the application: success (200, code 0, "ok"), a
    refusal (400, code 1, no data) or the 500 answer. *)
Theorem every_answer_is_an_envelope
  (xss : string -> string) (now : Z) (req : request) (st : Store)
  (env : UploadEnv) (file : option File) (fs : list string) :
  envelope (fst (handle xss now req st))
  /\ envelope (fst (upload env file fs)).
Proof.
  assert (Ok_ : forall d, envelope (ok d)) by (intros d; left; repeat split).
  assert (Bad : forall m, envelope (bad m)) by (intros m; right; left; repeat split).
  assert (Err : envelope server_error) by (right; right; reflexivity).
  split.
  - destruct req; cbn [handle];
      unfold list_notices, get_notice, create_notice, update_notice,
        publish_notice, delete_notice, batch_delete;
      split_handler; cbn [fst]; auto;
      repeat match goal with
             | |- context [Db.query ?n ?q ?s] =>
                 destruct (Db.query n q s) as [[[ | | [ | ] | | ] | ] ?]
             end; cbn [fst]; auto.
    destruct ids as [ | | | | | [ | ] | ]; cbn [fst]; auto;
      split_handler; cbn [fst]; auto;
      repeat match goal with
             | |- context [Db.query ?n ?q ?s] =>
                 destruct (Db.query n q s) as [[ | ] ?]
             end; cbn [fst]; auto.
  - unfold upload. destruct file as [f | ]; cbn [fst]; auto.
    destruct (fileFilter f) as [ | [ | ]]; cbn [fst]; auto.
    destruct (destination f); cbn [fst]; auto.
    split_handler; cbn [fst]; auto.
Qed.

(** X4: a request that is answered with status 400 has not changed the
    table; unless the answer is "not found" (the one refusal that follows
    a SELECT), it has not sent any statement either: the store is as it
    was. *)
Theorem refusal_leaves_store
  (xss : string -> string) (now : Z) (req : request) (st : Store) :
  http_status (fst (handle xss now req st)) = 400 ->
  snd (handle xss now req st) = st
  \/ (msg (fst (handle xss now req st)) = "not found"
      /\ rows (snd (handle xss now req st)) = rows st
      /\ next_id (snd (handle xss now req st)) = next_id st).
Proof.
  destruct req; cbn [handle].
  - unfold list_notices. split_handler; cbn [fst snd]; auto.
    all: repeat match goal with
           | |- context [Db.query ?n ?q ?s] =>
               destruct (Db.query n q s) as [[[ | | | | ] | ] ?]
           end; cbn [fst snd]; intros H; discriminate H.
  - unfold get_notice. destruct (validateId id); cbn [fst snd]; auto.
    pose proof (select_keeps_table now (SelectById (NumStr.StringToNumber id)) st I)
      as [Hr Hn].
    destruct (Db.query now (SelectById (NumStr.StringToNumber id)) st)
      as [[[ | | [ | ] | | ] | ] st1]; cbn [fst snd] in *; intros H;
      try discriminate H.
    right. auto.
  - unfold create_notice. split_handler; cbn [fst snd]; auto.
    destruct (Db.query now _ st) as [[[ | | | | ] | ] ?]; cbn [fst snd];
      intros H; discriminate H.
  - unfold update_notice. split_handler; cbn [fst snd]; auto.
    destruct (Db.query now _ st) as [[ | ] ?]; cbn [fst snd];
      intros H; discriminate H.
  - unfold publish_notice. split_handler; cbn [fst snd]; auto.
    destruct (Db.query now _ st) as [[ | ] ?]; cbn [fst snd];
      intros H; discriminate H.
  - unfold delete_notice. split_handler; cbn [fst snd]; auto.
    destruct (Db.query now _ st) as [[ | ] ?]; cbn [fst snd];
      intros H; discriminate H.
  - unfold batch_delete.
    destruct (if Js.truthy ids then ids else VArr []) as [ | | | | | [ | x items] | ];
      cbn [fst snd]; auto.
    split_handler; cbn [fst snd]; auto.
    destruct (Db.query now _ st) as [[ | ] ?]; cbn [fst snd];
      intros H; discriminate H.
Qed.

Lemma refusal_leaves_store_witness :
  snd (handle xss_text 5 (GetList (Some "0") None None) sample_store) = sample_store
  \/ (msg (fst (handle xss_text 5 (GetList (Some "0") None None) sample_store))
      = "not found"
      /\ rows (snd (handle xss_text 5 (GetList (Some "0") None None) sample_store))
         = rows sample_store
      /\ next_id (snd (handle xss_text 5 (GetList (Some "0") None None) sample_store))
         = next_id sample_store).
Proof.
  exact (refusal_leaves_store xss_text 5 (GetList (Some "0") None None)
           sample_store eq_refl).
Defined.

(** X5: the two reading routes, the list and the get by id, never change
    the table nor the next id, whatever their parameters and whatever
    they answer. *)
Theorem reads_keep_table
  (now : Z) (page_q size_q status_q : option string) (id : string) (st : Store) :
  rows (snd (list_notices now page_q size_q status_q st)) = rows st
  /\ next_id (snd (list_notices now page_q size_q status_q st)) = next_id st
  /\ rows (snd (get_notice now id st)) = rows st
  /\ next_id (snd (get_notice now id st)) = next_id st.
Proof.
  destruct (list_notices_rows now page_q size_q status_q st) as [H1 H2].
  split; [exact H1 | ]. split; [exact H2 | ].
  unfold get_notice. destruct (validateId id); cbn [snd]; auto.
  pose proof (select_keeps_table now (SelectById (NumStr.StringToNumber id)) st I)
    as [Hr Hn].
  destruct (Db.query now (SelectById (NumStr.StringToNumber id)) st)
    as [[[ | | [ | ] | | ] | ] st1]; cbn [snd] in *; auto.
Qed.

(* ------------------------------------------------------------------ *)
(** ** Which ids are valid, and the text of an id *)

Lemma Qle_bool_false_not_zero (q : Q) :
  Qle_bool q (inject_Z 0) = false -> Qeq_bool q 0 = false.
Proof.
  intros H. destruct (Qeq_bool q 0) eqn:E; [ | reflexivity].
  apply Qeq_bool_iff in E.
  assert (L : Qle_bool q (inject_Z 0) = true).
  { apply Qle_bool_iff. rewrite E. apply Qle_refl. }
  congruence.
Qed.

(** X6: [validateId] accepts an id exactly when its number is greater
    than [0]: [NaN], zero, the negative numbers and [-Infinity] are
    refused, every positive number is accepted, a fraction or [Infinity]
    included. *)
Theorem validateId_accepts_positive (id : string) :
  validateId id = None
  <-> Num.gt (NumStr.StringToNumber id) (Num.of_Z 0) = true.
Proof.
  unfold validateId.
  destruct (NumStr.StringToNumber id) as [ | | | q]; cbn; try (split; congruence).
  unfold Num.Qlt_bool.
  destruct (Qle_bool q (inject_Z 0)) eqn:L; cbn.
  - rewrite orb_true_r. split; discriminate.
  - rewrite (Qle_bool_false_not_zero q L). cbn. split; reflexivity.
Qed.

Example validateId_samples :
  map validateId ["1"; "0"; "-3"; "abc"; "1.5"; " 7 "; "Infinity"; "0x10"; "1e3"; "12px"]
  = [None; Some "Invalid ID"; Some "Invalid ID"; Some "Invalid ID"; None; None;
     None; None; None; Some "Invalid ID"].
Proof. vm_compute. reflexivity. Qed.

Ltac digit_value :=
  match goal with
  | |- context [Str.code ?c - 48] =>
      let v := eval vm_compute in (Str.code c - 48) in
      change (Str.code c - 48) with v
  end.

Lemma read_digit_step (c : ascii) (v : Z) (s : string) (acc n : Z) :
  NumStr.below 10 (NumStr.hex_digit_of c) = Some v ->
  NumStr.read_digits 10 (String c s) acc n
  = NumStr.read_digits 10 s (acc * 10 + v) (n + 1).
Proof. simpl. now intros ->. Qed.

(** Reading the digits of a decimal numeral gives its number. *)
Lemma read_uint_acc (d : Decimal.uint) (acc : positive) (n : Z) :
  exists k, 0 <= k /\
    NumStr.read_digits 10 (DecimalString.NilEmpty.string_of_uint d) (Zpos acc) n
    = (Zpos (Pos.of_uint_acc d acc), n + k, "").
Proof.
  revert acc n.
  induction d; intros acc n;
    cbn [DecimalString.NilEmpty.string_of_uint Pos.of_uint_acc].
  1: exists 0; split; [lia | now rewrite Z.add_0_r].
  all: erewrite read_digit_step by reflexivity;
    match goal with
    | |- context [Pos.of_uint_acc _ ?p] =>
        destruct (IHd p (n + 1)) as [k [Hk E]];
        match goal with
        | |- context [NumStr.read_digits 10 _ ?a _] =>
            replace a with (Zpos p) by (digit_value; lia)
        end;
        rewrite E; exists (k + 1); split; [lia | f_equal; f_equal; lia]
    end.
Qed.

Lemma read_uint (d : Decimal.uint) :
  exists k, 0 <= k /\
    (d <> Decimal.Nil -> 0 < k) /\
    NumStr.read_digits 10 (DecimalString.NilEmpty.string_of_uint d) 0 0
    = (Z.of_uint d, k, "").
Proof.
  unfold Z.of_uint.
  assert (G : forall n, 0 <= n -> exists k, n <= k /\ (d <> Decimal.Nil -> n < k) /\
    NumStr.read_digits 10 (DecimalString.NilEmpty.string_of_uint d) 0 n
    = (Z.of_N (Pos.of_uint d), k, "")).
  { induction d; intros n Hn;
      cbn [DecimalString.NilEmpty.string_of_uint Pos.of_uint].
    1: exists n; repeat split; [lia | congruence ].
    1: { erewrite read_digit_step by reflexivity.
         change (0 * 10 + (Str.code "0" - 48)) with 0.
         destruct (IHd (n + 1)) as [k [Hk [_ E]]]; [lia | ].
         exists k. repeat split; [lia | lia | exact E]. }
    all: erewrite read_digit_step by reflexivity;
      match goal with
      | |- context [Pos.of_uint_acc _ ?p] =>
          destruct (read_uint_acc d p (n + 1)) as [k [Hk E]];
          match goal with
          | |- context [NumStr.read_digits 10 _ ?a _] =>
              change a with (Zpos p)
          end;
          rewrite E; exists (n + 1 + k); repeat split; lia
      end. }
  destruct (G 0) as [k [Hk [Hp E]]]; [lia | ].
  exists k. repeat split; auto.
Qed.

Lemma trimStart_numeral (d : Decimal.uint) :
  Str.trimStart (DecimalString.NilEmpty.string_of_uint d)
  = DecimalString.NilEmpty.string_of_uint d.
Proof. destruct d; reflexivity. Qed.

Lemma trimEnd_numeral (d : Decimal.uint) :
  Str.trimEnd (DecimalString.NilEmpty.string_of_uint d)
  = DecimalString.NilEmpty.string_of_uint d.
Proof.
  induction d; cbn [DecimalString.NilEmpty.string_of_uint Str.trimEnd];
    try reflexivity; rewrite IHd;
    destruct (DecimalString.NilEmpty.string_of_uint d); reflexivity.
Qed.

Lemma radix_literal_numeral (d : Decimal.uint) :
  NumStr.radix_literal (DecimalString.NilEmpty.string_of_uint d) = None.
Proof. destruct d; try reflexivity. destruct d; reflexivity. Qed.

Lemma decimal_literal_numeral (d : Decimal.uint) :
  d <> Decimal.Nil ->
  NumStr.decimal_literal (DecimalString.NilEmpty.string_of_uint d)
  = Some (inject_Z (Z.of_uint d)).
Proof.
  intros Hd. unfold NumStr.decimal_literal.
  destruct (read_uint d) as [k [Hk [Hp E]]]. rewrite E.
  specialize (Hp Hd).
  destruct (Z.eqb_spec (k + 0) 0); [lia | ].
  cbn [NumStr.exponent_part]. unfold NumStr.scale10.
  replace (0 - 0) with 0 by reflexivity. cbn [Z.leb Z.compare Z.pow].
  now rewrite Z.mul_1_r.
Qed.

(** The number of the decimal text of a natural numeral: the numeral,
    rounded. *)
Lemma StringToNumber_numeral (d : Decimal.uint) :
  d <> Decimal.Nil ->
  NumStr.StringToNumber (DecimalString.NilEmpty.string_of_uint d)
  = Num.round (inject_Z (Z.of_uint d)).
Proof.
  intros Hd. unfold NumStr.StringToNumber, Str.trim.
  rewrite trimStart_numeral, trimEnd_numeral, radix_literal_numeral.
  assert (U : NumStr.unsigned_literal (DecimalString.NilEmpty.string_of_uint d)
              = Num.round (inject_Z (Z.of_uint d))).
  { unfold NumStr.unsigned_literal. rewrite (decimal_literal_numeral d Hd).
    destruct d; try reflexivity. }
  destruct d; try contradiction; exact U.
Qed.

Lemma to_uint_not_nil (p : positive) : Pos.to_uint p <> Decimal.Nil.
Proof.
  intros E. pose proof (DecimalPos.Unsigned.of_to p) as H.
  rewrite E in H. discriminate H.
Qed.

Lemma numeral_text (d : Decimal.uint) :
  d <> Decimal.Nil ->
  DecimalString.NilZero.string_of_uint d
  = DecimalString.NilEmpty.string_of_uint d.
Proof. destruct d; intros H; try reflexivity. contradiction. Qed.

Lemma id_text_number (z : Z) :
  0 < z <= Num.max_exact -> NumStr.StringToNumber (Z_to_string z) = Num.of_Z z.
Proof.
  intros Hz. destruct z as [ | p | p]; try lia.
  unfold Z_to_string, DecimalString.NilZero.string_of_int. cbn [Z.to_int].
  rewrite (numeral_text _ (to_uint_not_nil p)).
  rewrite (StringToNumber_numeral _ (to_uint_not_nil p)).
  unfold Z.of_uint. rewrite DecimalPos.Unsigned.of_to.
  apply round_exact; [reflexivity | lia].
Qed.

Lemma id_text_addresses (z : Z) :
  0 < z <= Num.max_exact -> addresses (Z_to_string z) z.
Proof.
  intros Hz. split; [ | exact Hz]. rewrite (id_text_number z Hz).
  apply to_Z_of_Z.
Qed.

(** X7: the decimal text of a positive integer up to [2^53] reads back
    as that integer and passes [validateId]: an id that storage generates
    is accepted by the id-addressed routes when written in decimal.
    (Above [2^53] the text may read back as a neighbouring integer, see
    [rounded_id_text].) *)
Theorem positive_id_text_is_valid (z : Z) :
  0 < z <= Num.max_exact ->
  NumStr.StringToNumber (Z_to_string z) = Num.of_Z z
  /\ validateId (Z_to_string z) = None.
Proof.
  intros Hz. split; [now apply id_text_number | ].
  apply (is_id_valid _ z). now apply id_text_addresses.
Qed.

Lemma positive_id_text_is_valid_witness :
  NumStr.StringToNumber (Z_to_string 1234) = Num.of_Z 1234
  /\ validateId (Z_to_string 1234) = None.
Proof.
  apply (positive_id_text_is_valid 1234). unfold Num.max_exact. lia.
Defined.

(** Beyond the integers a number holds exactly: [2^53 + 1] reads back as
    [2^53], a literal too large as [Infinity], one too small as [0]. *)
Example rounded_id_text :
  map NumStr.StringToNumber ["9007199254740993"; "1e400"; "1e-400"]
  = [Num.of_Z 9007199254740992; PosInf; Num.of_Z 0].
Proof. vm_compute. reflexivity. Qed.

(* ------------------------------------------------------------------ *)
(** ** Get, create and delete *)

Lemma get_notice_valid (now : Z) (id : string) (z : Z) (st : Store) :
  addresses id z ->
  get_notice now id st
  = (match filter (fun r => z =? row_id r) (rows st) with
     | [] => bad "not found"
     | r :: _ => ok (DataNotice r)
     end,
     mkStore (rows st) (next_id st)
             (log st ++ [SelectById (NumStr.StringToNumber id)])).
Proof.
  intros Hid. destruct (is_id_valid id z Hid) as [Hv Hf].
  unfold get_notice. rewrite Hv, query_eq. cbn [Db.run]. rewrite Hf.
  cbn [fst snd].
  rewrite (filter_ext _ (fun r => z =? row_id r)
             (fun r => where_id_of_id _ z r (proj1 Hid))).
  now destruct (filter (fun r => z =? row_id r) (rows st)).
Qed.

Lemma filter_none (f : Notice -> bool) (t : list Notice) :
  (forall r, In r t -> f r = false) -> filter f t = [].
Proof.
  induction t as [ | r t IH ]; simpl; intros H; [reflexivity | ].
  rewrite (H r (or_introl eq_refl)). apply IH. intros r' Hr'. apply H. now right.
Qed.

(** In a table whose ids are unique, the id selects its row alone. *)
Lemma filter_unique (z : Z) (t : list Notice) (r : Notice) :
  NoDup (map row_id t) -> In r t -> row_id r = z ->
  filter (fun x => z =? row_id x) t = [r].
Proof.
  induction t as [ | x t IH ]; simpl; intros Hn Hin Hr; [contradiction | ].
  inversion Hn as [ | y l Hx Hl ]; subst.
  destruct Hin as [-> | Hin].
  - rewrite Z.eqb_refl. f_equal. apply filter_none. intros r' Hr'.
    apply Z.eqb_neq. intros E. apply Hx. rewrite E. now apply in_map.
  - destruct (Z.eqb_spec (row_id r) (row_id x)) as [E | N].
    + exfalso. apply Hx. rewrite <- E. now apply in_map.
    + now apply IH.
Qed.

(** X8: for an id that is a positive integer (up to [2^53]), in a store
    whose ids are unique, the get by id answers success with the row that
    has this id, its [content_delta] included, and "not found" (status
    400) when no row has it. *)
Theorem get_returns_the_row (now : Z) (id : string) (z : Z) (st : Store) :
  addresses id z ->
  Store_ok st ->
  (forall r, In r (rows st) -> row_id r = z ->
             success (fst (get_notice now id st)) (DataNotice r))
  /\ ((forall r, In r (rows st) -> row_id r <> z) ->
      refusal (fst (get_notice now id st)) "not found").
Proof.
  intros Hid [Hn _]. rewrite (get_notice_valid now id z st Hid). cbn [fst].
  split.
  - intros r Hr Hz. rewrite (filter_unique z _ r Hn Hr Hz). repeat split.
  - intros H. rewrite filter_none; [repeat split | ].
    intros r Hr. apply Z.eqb_neq. intros E. now apply (H r Hr).
Qed.

Lemma get_returns_the_row_witness :
  success (fst (get_notice 5 "2" sample_store))
          (DataNotice (mkNotice 2 (VStr "second") (VStr "two") (Some "{}")
                                published (Some 250) 200 250))
  /\ refusal (fst (get_notice 5 "9" sample_store)) "not found".
Proof.
  split.
  - refine (proj1 (get_returns_the_row 5 "2" 2 sample_store _ sample_store_ok)
                  (mkNotice 2 (VStr "second") (VStr "two") (Some "{}")
                            published (Some 250) 200 250) _ eq_refl).
    + split; [reflexivity | unfold Num.max_exact; lia].
    + simpl. auto.
  - refine (proj2 (get_returns_the_row 5 "9" 9 sample_store _ sample_store_ok) _).
    + split; [reflexivity | unfold Num.max_exact; lia].
    + simpl. intros r [<- | [<- | [<- | []]]]; discriminate.
Defined.

(** The engine refuses [WHERE id=Infinity]: the get ends in the 500
    answer, not in "not found". *)
Example get_unbounded_id :
  get_notice 5 "Infinity" sample_store
  = (server_error, mkStore (rows sample_store) 4 [SelectById PosInf]).
Proof. vm_compute. reflexivity. Qed.

Lemma create_notice_valid
  (xss : string -> string) (now : Z) (body : Body) (st : Store) (s1 s2 : string) :
  body_title body = VStr s1 -> body_content body = VStr s2 ->
  validateTitle (VStr (xss (Str.trim s1))) = Ok None ->
  validateContent (VStr (xss (Str.trim s2))) = Ok None ->
  create_notice xss now body st
  = (ok (DataId (next_id st)),
     mkStore (rows st ++ [mkNotice (next_id st)
                            (VStr (xss (Str.trim s1))) (VStr (xss (Str.trim s2)))
                            (delta_param (body_content_delta body))
                            draft None now now])
             (next_id st + 1)
             (log st ++ [InsertNotice (VStr (xss (Str.trim s1)))
                                      (VStr (xss (Str.trim s2)))
                                      (delta_param (body_content_delta body))])).
Proof.
  intros E1 E2 Ht Hc. unfold create_notice. rewrite E1, E2.
  cbn [sanitizeInput]. rewrite Ht, Hc. reflexivity.
Qed.

(** X9: create, for a title and a content that are strings and pass
    their validators once sanitised, answers the next id of the store
    (an id up to [2^53]); a get by this id, written in decimal, then
    answers the created notice: a draft without publish time, with the
    sanitised title and content, and with the text of [content_delta] as
    the request carried it (never passed through the filter).  The rows
    that were there are still there. *)
Theorem created_notice_is_found
  (xss : string -> string) (now later : Z) (body : Body) (st : Store)
  (s1 s2 : string) :
  Store_ok st -> 0 < next_id st <= Num.max_exact ->
  body_title body = VStr s1 -> body_content body = VStr s2 ->
  validateTitle (VStr (xss (Str.trim s1))) = Ok None ->
  validateContent (VStr (xss (Str.trim s2))) = Ok None ->
  success (fst (create_notice xss now body st)) (DataId (next_id st))
  /\ (exists r,
        success (fst (get_notice later (Z_to_string (next_id st))
                                 (snd (create_notice xss now body st))))
                (DataNotice r)
        /\ row_id r = next_id st
        /\ row_title r = VStr (xss (Str.trim s1))
        /\ row_content r = VStr (xss (Str.trim s2))
        /\ row_content_delta r = delta_param (body_content_delta body)
        /\ row_status r = draft
        /\ row_publish_time r = None)
  /\ (forall r, In r (rows st) ->
                In r (rows (snd (create_notice xss now body st)))).
Proof.
  intros [Hn Hl] Hp E1 E2 Ht Hc.
  rewrite (create_notice_valid xss now body st s1 s2 E1 E2 Ht Hc).
  cbn [fst snd rows].
  split; [repeat split | ]. split.
  - rewrite (get_notice_valid later _ (next_id st) _ (id_text_addresses _ Hp)).
    cbn [fst rows]. rewrite filter_app, filter_none.
    + cbn [filter app row_id]. rewrite Z.eqb_refl.
      eexists. split; [repeat split | ]. repeat split.
    + intros r Hr. rewrite Forall_forall in Hl. specialize (Hl r Hr).
      apply Z.eqb_neq. lia.
  - intros r Hr. apply in_or_app. now left.
Qed.

Lemma created_notice_is_found_witness :
  exists r,
    success (fst (get_notice 9 (Z_to_string 4)
                    (snd (create_notice xss_text 8
                            (mkBody (VStr " hello ") (VStr "world") (Some "<delta>"))
                            sample_store))))
            (DataNotice r)
    /\ row_id r = 4
    /\ row_title r = VStr "hello"
    /\ row_content r = VStr "world"
    /\ row_content_delta r = Some "<delta>"
    /\ row_status r = draft
    /\ row_publish_time r = None.
Proof.
  refine (proj1 (proj2 (created_notice_is_found xss_text 8 9
            (mkBody (VStr " hello ") (VStr "world") (Some "<delta>"))
            sample_store " hello " "world" sample_store_ok _
            eq_refl eq_refl eq_refl eq_refl))).
  unfold Num.max_exact. simpl. lia.
Defined.

Lemma delete_notice_valid (now : Z) (id : string) (z : Z) (st : Store) :
  addresses id z ->
  delete_notice now id st
  = (ok DataTrue,
     mkStore (Db.delete_where (Db.where_id (NumStr.StringToNumber id)) (rows st))
             (next_id st)
             (log st ++ [DeleteNotice (NumStr.StringToNumber id)])).
Proof.
  intros Hid. destruct (is_id_valid id z Hid) as [Hv Hf].
  unfold delete_notice. rewrite Hv, query_eq. cbn [Db.run].
  rewrite Hf. reflexivity.
Qed.

Lemma delete_where_none (f : Notice -> bool) (t : list Notice) :
  (forall r, In r t -> f r = false) -> Db.delete_where f t = t.
Proof.
  unfold Db.delete_where. induction t as [ | r t IH ]; simpl; intros H;
    [reflexivity | ].
  rewrite (H r (or_introl eq_refl)). cbn [negb]. f_equal.
  apply IH. intros r' Hr'. apply H. now right.
Qed.

(** X10: for an id that is a positive integer (up to [2^53]), delete
    answers success whether or not a row has the id; exactly the rows
    with this id are removed, the others are kept as they are; a get by
    the same id then answers "not found"; and when no row had the id the
    table is unchanged. *)
Theorem delete_removes_the_row
  (now later : Z) (id : string) (z : Z) (st : Store) :
  addresses id z ->
  success (fst (delete_notice now id st)) DataTrue
  /\ (forall r, In r (rows (snd (delete_notice now id st))) <->
                In r (rows st) /\ row_id r <> z)
  /\ refusal (fst (get_notice later id (snd (delete_notice now id st))))
             "not found"
  /\ ((forall r, In r (rows st) -> row_id r <> z) ->
      rows (snd (delete_notice now id st)) = rows st).
Proof.
  intros Hid. rewrite (delete_notice_valid now id z st Hid). cbn [fst snd rows].
  assert (Hin : forall r,
             In r (Db.delete_where (Db.where_id (NumStr.StringToNumber id)) (rows st))
             <-> In r (rows st) /\ row_id r <> z).
  { intros r. rewrite delete_where_In, (where_id_of_id _ z r (proj1 Hid)).
    rewrite Z.eqb_neq. intuition congruence. }
  split; [repeat split | ]. split; [exact Hin | split].
  - rewrite (get_notice_valid later id z _ Hid). cbn [fst rows].
    rewrite filter_none; [repeat split | ].
    intros r Hr. apply Hin in Hr. apply Z.eqb_neq. intuition congruence.
  - intros H. apply delete_where_none. now apply (where_id_none _ z _ (proj1 Hid)).
Qed.

Lemma delete_removes_the_row_witness :
  (forall r, In r (rows (snd (delete_notice 8 "2" sample_store))) <->
             In r (rows sample_store) /\ row_id r <> 2)
  /\ refusal (fst (get_notice 9 "2" (snd (delete_notice 8 "2" sample_store))))
             "not found".
Proof.
  assert (H : addresses "2" 2)
    by (split; [reflexivity | unfold Num.max_exact; lia]).
  split.
  - exact (proj1 (proj2 (delete_removes_the_row 8 9 "2" 2 sample_store H))).
  - exact (proj1 (proj2 (proj2 (delete_removes_the_row 8 9 "2" 2 sample_store H)))).
Defined.

Example delete_second_row :
  map row_id (rows (snd (delete_notice 8 "2" sample_store))) = [1; 3].
Proof. vm_compute. reflexivity. Qed.

(** What publish does to the table, whatever the id: nothing, or the
    update of the rows the id addresses. *)
Lemma publish_notice_rows (now : Z) (id : string) (st : Store) :
  rows (snd (publish_notice now id st)) = rows st
  \/ rows (snd (publish_notice now id st))
     = Db.update_where (Db.where_id (NumStr.StringToNumber id))
                       (fun r => Db.touch now (Db.set_published now r))
                       (rows st).
Proof.
  unfold publish_notice. destruct (validateId id); [now left | ].
  rewrite query_eq. cbn [Db.run].
  destruct (Num.finite (NumStr.StringToNumber id)); cbn [fst snd rows]; auto.
Qed.

(** X11: publish changes nothing but the status and the publish time
    (and what storage manages itself), whatever the id it is given, valid
    or not: no row is added or removed, and every row keeps its id,
    title, content, [content_delta] and creation time.  For an id that is
    a positive integer (up to [2^53]) it answers success whether or not a
    row has the id; the row with the id is published at the time of the
    call, every other row is as it was, and when no row has the id the
    table is unchanged. *)
Theorem publish_keeps_the_text (now : Z) (id : string) (st : Store) :
  Forall2
    (fun old new =>
       row_id new = row_id old
       /\ row_title new = row_title old
       /\ row_content new = row_content old
       /\ row_content_delta new = row_content_delta old
       /\ row_created_at new = row_created_at old)
    (rows st) (rows (snd (publish_notice now id st)))
  /\ forall z, addresses id z ->
       success (fst (publish_notice now id st)) DataTrue
       /\ Forall2
            (fun old new =>
               (row_id old = z ->
                row_status new = published /\ row_publish_time new = Some now)
               /\ (row_id old <> z -> new = old))
            (rows st) (rows (snd (publish_notice now id st)))
       /\ ((forall r, In r (rows st) -> row_id r <> z) ->
           rows (snd (publish_notice now id st)) = rows st).
Proof.
  split.
  - destruct (publish_notice_rows now id st) as [-> | ->].
    + apply Forall2_same. intros r _. repeat split.
    + apply Forall2_update_where. intros r _.
      destruct (Db.where_id (NumStr.StringToNumber id) r); repeat split.
  - intros z Hid. rewrite (publish_notice_valid now id z st Hid).
    cbn [fst snd rows]. split; [repeat split | split].
    + apply Forall2_update_where. intros r _.
      rewrite (where_id_of_id _ z r (proj1 Hid)).
      destruct (Z.eqb_spec z (row_id r)) as [E | N]; split; intros H;
        try reflexivity; try congruence. now split.
    + intros H. apply update_where_none.
      now apply (where_id_none _ z _ (proj1 Hid)).
Qed.

Lemma publish_keeps_the_text_witness :
  Forall2
    (fun old new =>
       (row_id old = 3 ->
        row_status new = published /\ row_publish_time new = Some 9)
       /\ (row_id old <> 3 -> new = old))
    (rows sample_store) (rows (snd (publish_notice 9 "3" sample_store)))
  /\ rows (snd (publish_notice 9 "7" sample_store)) = rows sample_store.
Proof.
  assert (H3 : addresses "3" 3)
    by (split; [reflexivity | unfold Num.max_exact; lia]).
  assert (H7 : addresses "7" 7)
    by (split; [reflexivity | unfold Num.max_exact; lia]).
  split.
  - exact (proj1 (proj2 (proj2 (publish_keeps_the_text 9 "3" sample_store) 3 H3))).
  - apply (proj2 (proj2 (proj2 (publish_keeps_the_text 9 "7" sample_store) 7 H7))).
    simpl. intros r [<- | [<- | [<- | []]]]; discriminate.
Defined.

Lemma In_updated
  (f : Notice -> bool) (g : Notice -> Notice) (t : list Notice) (r : Notice) :
  In r t -> f r = true -> In (g r) (Db.update_where f g t).
Proof.
  intros Hr Hf. unfold Db.update_where. apply in_map_iff.
  exists r. now rewrite Hf.
Qed.

(** X12: a write is read back.  In a store whose ids are unique, for the
    id of a row (a positive integer up to [2^53]): after an update with a
    title and a content that are strings and pass their validators once
    sanitised, the get by the same id answers a row with this id, the new
    title, content and [content_delta], and the status, publish time and
    creation time the row had; after a publish it answers a row with this
    id, the status [published], the publish time of the call, and the
    texts and creation time the row had. *)
Theorem writes_are_read_back
  (xss : string -> string) (now later : Z) (id : string) (body : Body)
  (st : Store) (r : Notice) (s1 s2 : string) :
  addresses id (row_id r) ->
  Store_ok st ->
  In r (rows st) ->
  (body_title body = VStr s1 -> body_content body = VStr s2 ->
   validateTitle (VStr (xss (Str.trim s1))) = Ok None ->
   validateContent (VStr (xss (Str.trim s2))) = Ok None ->
   exists r',
     success (fst (get_notice later id (snd (update_notice xss now id body st))))
             (DataNotice r')
     /\ row_id r' = row_id r
     /\ row_title r' = VStr (xss (Str.trim s1))
     /\ row_content r' = VStr (xss (Str.trim s2))
     /\ row_content_delta r' = delta_param (body_content_delta body)
     /\ row_status r' = row_status r
     /\ row_publish_time r' = row_publish_time r
     /\ row_created_at r' = row_created_at r)
  /\ (exists r',
        success (fst (get_notice later id (snd (publish_notice now id st))))
                (DataNotice r')
        /\ row_id r' = row_id r
        /\ row_title r' = row_title r
        /\ row_content r' = row_content r
        /\ row_content_delta r' = row_content_delta r
        /\ row_status r' = published
        /\ row_publish_time r' = Some now
        /\ row_created_at r' = row_created_at r).
Proof.
  intros Hid [Hn _] Hr.
  assert (Hw : Db.where_id (NumStr.StringToNumber id) r = true).
  { rewrite (where_id_of_id _ (row_id r) r (proj1 Hid)). apply Z.eqb_refl. }
  split.
  - intros E1 E2 Ht Hc.
    rewrite (update_notice_valid xss now id _ body st s1 s2 Hid E1 E2 Ht Hc).
    cbn [snd]. rewrite (get_notice_valid later id _ _ Hid). cbn [fst rows].
    rewrite (filter_unique _ _
               (Db.touch now
                  (Db.set_text (VStr (xss (Str.trim s1))) (VStr (xss (Str.trim s2)))
                               (delta_param (body_content_delta body)) r))).
    + eexists. split; [repeat split | repeat split].
    + now rewrite ids_update_where.
    + exact (In_updated _ (fun x => Db.touch now (Db.set_text _ _ _ x)) _ r Hr Hw).
    + reflexivity.
  - rewrite (publish_notice_valid now id _ st Hid).
    cbn [snd]. rewrite (get_notice_valid later id _ _ Hid). cbn [fst rows].
    rewrite (filter_unique _ _ (Db.touch now (Db.set_published now r))).
    + eexists. split; [repeat split | repeat split].
    + now rewrite ids_update_where.
    + exact (In_updated _ (fun x => Db.touch now (Db.set_published now x)) _ r Hr Hw).
    + reflexivity.
Qed.

Lemma writes_are_read_back_witness :
  (exists r',
     success (fst (get_notice 9 "1"
                     (snd (update_notice xss_text 8 "1"
                             (mkBody (VStr " <b>t</b> ") (VStr "c") (Some "[1]"))
                             sample_store))))
             (DataNotice r')
     /\ row_id r' = 1
     /\ row_title r' = VStr "&lt;b&gt;t&lt;/b&gt;"
     /\ row_content r' = VStr "c"
     /\ row_content_delta r' = Some "[1]"
     /\ row_status r' = draft
     /\ row_publish_time r' = None
     /\ row_created_at r' = 100)
  /\ (exists r',
        success (fst (get_notice 9 "1" (snd (publish_notice 8 "1" sample_store))))
                (DataNotice r')
        /\ row_id r' = 1
        /\ row_title r' = VStr "first"
        /\ row_content r' = VStr "one"
        /\ row_content_delta r' = None
        /\ row_status r' = published
        /\ row_publish_time r' = Some 8
        /\ row_created_at r' = 100).
Proof.
  assert (H : addresses "1" 1)
    by (split; [reflexivity | unfold Num.max_exact; lia]).
  assert (Hr : In (mkNotice 1 (VStr "first") (VStr "one") None draft None 100 100)
                  (rows sample_store)) by (simpl; auto).
  split.
  - exact (proj1 (writes_are_read_back xss_text 8 9 "1"
                    (mkBody (VStr " <b>t</b> ") (VStr "c") (Some "[1]"))
                    sample_store
                    (mkNotice 1 (VStr "first") (VStr "one") None draft None 100 100)
                    " <b>t</b> " "c" H sample_store_ok Hr)
                 eq_refl eq_refl eq_refl eq_refl).
  - exact (proj2 (writes_are_read_back xss_text 8 9 "1"
                    (mkBody VUndefined VUndefined None)
                    sample_store
                    (mkNotice 1 (VStr "first") (VStr "one") None draft None 100 100)
                    "" "" H sample_store_ok Hr)).
Defined.

(* ------------------------------------------------------------------ *)
(** ** What reaches storage *)

Lemma validateId_positive (id : string) :
  validateId id = None -> above_zero (NumStr.StringToNumber id).
Proof.
  unfold validateId, above_zero.
  destruct (NumStr.StringToNumber id) as [ | | | q]; cbn; try congruence.
  unfold Num.Qlt_bool.
  destruct (Qle_bool q (inject_Z 0)); cbn; [ | reflexivity].
  rewrite orb_true_r. discriminate.
Qed.

Lemma safe_ids_positive (items : list value) (ns : list number) :
  safe_ids items = Ok ns -> Forall above_zero ns.
Proof.
  unfold safe_ids. destruct (mapM Js.ToNumber items) as [nums | ];
    cbn [bind]; [ | discriminate].
  intros H. injection H as <-. apply Forall_forall. intros n Hn.
  apply filter_In in Hn. apply Hn.
Qed.

Lemma status_checked (status : string) :
  negb (Str.is_empty status)
  && negb (existsb (String.eqb status) ["draft"; "published"]) = false ->
  status_filter_ok (if Str.is_empty status then None else Some status).
Proof.
  unfold status_filter_ok. destruct (Str.is_empty status); cbn; [auto | ].
  destruct (String.eqb_spec status "draft") as [-> | _]; [auto | ].
  destruct (String.eqb_spec status "published") as [-> | _]; [auto | ].
  discriminate.
Qed.

Lemma one_statement (now : Z) (q : query) (st : Store) :
  snd (Db.query now q st) = run_all now [q] st.
Proof. reflexivity. Qed.

Lemma run_all_log (now : Z) (qs : list query) (st : Store) :
  log (run_all now qs st) = (log st ++ qs)%list.
Proof.
  unfold run_all. revert st. induction qs as [ | q qs IH ]; intros st; simpl.
  - now rewrite app_nil_r.
  - rewrite IH, query_eq. cbn [snd log]. now rewrite <- app_assoc.
Qed.

Ltac sends qs := exists qs; split; [ | split; [ | split ] ].

Lemma handler_statements
  (xss : string -> string) (now : Z) (req : request) (st : Store) :
  exists qs : list query,
    statements_of req qs
    /\ snd (handle xss now req st) = run_all now qs st
    /\ Forall (sent_ok xss) qs
    /\ (http_status (fst (handle xss now req st)) = 200 ->
        List.length qs = match req with GetList _ _ _ => 2%nat | _ => 1%nat end).
Proof.
  assert (None_ : forall r : response,
             http_status r <> 200 ->
             exists qs : list query,
               statements_of req qs
               /\ snd (r, st) = run_all now qs st /\ Forall (sent_ok xss) qs
               /\ (http_status (fst (r, st)) = 200 ->
                   List.length qs
                   = match req with GetList _ _ _ => 2%nat | _ => 1%nat end)).
  { intros r Hr. sends (@nil query);
      [now left | reflexivity | constructor | intros H; contradiction]. }
  assert (B : forall m, http_status (bad m) <> 200) by (intros m; discriminate).
  assert (E5 : http_status server_error <> 200) by discriminate.
  destruct req as [page_q size_q status_q | id | body | id body | id | id | ids];
    cbn [handle].
  - unfold list_notices.
    destruct (_ || _ || _) eqn:E1; [now apply None_ | ].
    destruct (_ && _) eqn:E2; [now apply None_ | ].
    apply status_checked in E2.
    apply orb_false_iff in E1. destruct E1 as [E1 E3].
    apply orb_false_iff in E1. destruct E1 as [_ E1].
    set (w := if Str.is_empty _ then None else Some _) in *.
    set (limit := query_number size_q 10) in *.
    set (offset := Num.mul _ limit).
    assert (S1 : sent_ok xss (SelectPage w limit offset))
      by (cbn [sent_ok]; auto).
    destruct (Db.row_count limit) as [l | ] eqn:Hl;
      [destruct (Db.row_count offset) as [o | ] eqn:Ho | ].
    + sends [SelectPage w limit offset; SelectCount w].
      * right. exists w, limit, offset. now right.
      * unfold run_all. cbn [fold_left]. rewrite !query_eq.
        cbn [Db.run fst snd rows next_id log]. rewrite Hl, Ho.
        reflexivity.
      * constructor; [exact S1 | constructor; [exact E2 | constructor]].
      * reflexivity.
    + sends [SelectPage w limit offset].
      * right. exists w, limit, offset. now left.
      * unfold run_all. cbn [fold_left]. rewrite !query_eq.
        cbn [Db.run fst snd rows next_id log]. rewrite Hl, Ho.
        reflexivity.
      * constructor; [exact S1 | constructor].
      * rewrite !query_eq. cbn [Db.run fst snd rows next_id log].
        rewrite Hl, Ho. discriminate.
    + sends [SelectPage w limit offset].
      * right. exists w, limit, offset. now left.
      * unfold run_all. cbn [fold_left]. rewrite !query_eq.
        cbn [Db.run fst snd rows next_id log]. rewrite Hl.
        reflexivity.
      * constructor; [exact S1 | constructor].
      * rewrite !query_eq. cbn [Db.run fst snd rows next_id log].
        rewrite Hl. discriminate.
  - unfold get_notice. destruct (validateId id) eqn:Hid; [now apply None_ | ].
    sends [SelectById (NumStr.StringToNumber id)].
    + now right.
    + rewrite <- one_statement.
      now destruct (Db.query now _ st) as [[[ | | [ | ] | | ] | ] ?].
    + repeat constructor. now apply validateId_positive.
    + reflexivity.
  - unfold create_notice.
    destruct (validateTitle _) as [[ | ] | ] eqn:Ht; try now apply None_.
    destruct (validateContent _) as [[ | ] | ] eqn:Hc; try now apply None_.
    match goal with
    | |- context [Db.query now ?q st] => sends [q]
    end.
    + right. eauto.
    + rewrite <- one_statement.
      now destruct (Db.query now _ st) as [[[ | | | | ] | ] ?].
    + repeat constructor; eauto.
    + reflexivity.
  - unfold update_notice. destruct (validateId id) eqn:Hid; [now apply None_ | ].
    destruct (validateTitle _) as [[ | ] | ] eqn:Ht; try now apply None_.
    destruct (validateContent _) as [[ | ] | ] eqn:Hc; try now apply None_.
    match goal with
    | |- context [Db.query now ?q st] => sends [q]
    end.
    + right. eauto.
    + rewrite <- one_statement.
      now destruct (Db.query now _ st) as [[ | ] ?].
    + repeat constructor; eauto. now apply validateId_positive.
    + reflexivity.
  - unfold publish_notice. destruct (validateId id) eqn:Hid; [now apply None_ | ].
    sends [PublishNotice (NumStr.StringToNumber id)].
    + now right.
    + rewrite <- one_statement.
      now destruct (Db.query now _ st) as [[ | ] ?].
    + repeat constructor. now apply validateId_positive.
    + reflexivity.
  - unfold delete_notice. destruct (validateId id) eqn:Hid; [now apply None_ | ].
    sends [DeleteNotice (NumStr.StringToNumber id)].
    + now right.
    + rewrite <- one_statement.
      now destruct (Db.query now _ st) as [[ | ] ?].
    + repeat constructor. now apply validateId_positive.
    + reflexivity.
  - unfold batch_delete.
    destruct (if Js.truthy ids then ids else VArr []) as [ | | | | | [ | x items] | ];
      try now apply None_.
    destruct (safe_ids _) as [safeIds | ] eqn:Hs; [ | now apply None_].
    destruct (Nat.eqb_spec (List.length safeIds) 0); [now apply None_ | ].
    destruct (Nat.ltb_spec 100 (List.length safeIds)); [now apply None_ | ].
    sends [DeleteIn safeIds].
    + right. eauto.
    + rewrite <- one_statement.
      now destruct (Db.query now _ st) as [[ | ] ?].
    + constructor; [ | constructor]. cbn [sent_ok].
      split; [lia | now apply (safe_ids_positive _ _ Hs)].
    + reflexivity.
Qed.

(** X13: a handler sends no statement, or the one statement of its
    route; the list sends its page statement and then, when that one is
    answered, the count.  These statements are what the handler adds to
    the log, and what it does to the store is what they do.  An answer of
    success is given after one statement, and by the list after its
    two.  Each statement carries checked
    parameters: an id is a number above [0]; a title and a content are
    what [sanitizeInput] returned and their validators accepted; a status
    filter is absent, [draft] or [published]; a page size is neither at
    most [0] nor above [100]; a batch holds 1 to 100 ids, all above
    [0]. *)
Theorem handler_sends_checked_statements
  (xss : string -> string) (now : Z) (req : request) (st : Store) :
  exists qs : list query,
    statements_of req qs
    /\ log (snd (handle xss now req st)) = (log st ++ qs)%list
    /\ snd (handle xss now req st) = run_all now qs st
    /\ Forall (sent_ok xss) qs
    /\ (http_status (fst (handle xss now req st)) = 200 ->
        List.length qs = match req with GetList _ _ _ => 2%nat | _ => 1%nat end).
Proof.
  destruct (handler_statements xss now req st) as [qs [Sh [E [F L]]]].
  exists qs. repeat split; auto. rewrite E. apply run_all_log.
Qed.

Example list_statements :
  log (snd (handle xss_text 5 (GetList (Some "2") (Some "2") (Some "draft"))
                   sample_store))
  = [SelectPage (Some "draft") (Num.of_Z 2) (Num.of_Z 2); SelectCount (Some "draft")]
  /\ log (snd (handle xss_text 5 (GetList (Some "1.25") None None) sample_store))
     = [SelectPage None (Num.of_Z 10) (Fin (5 # 2))].
Proof. vm_compute. repeat split. Qed.

(* ------------------------------------------------------------------ *)
(** ** Invariants of the table over any sequence of requests *)

Lemma valid_length (limit : Z) (s : string) :
  Js.truthy (VStr s) = true ->
  (len <- Js.get_length (VStr s) ;; Js.gt_number len limit)%result = Ok false ->
  0 < Str.len s <= limit.
Proof.
  cbn [Js.truthy Js.get_length bind Js.gt_number Js.ToNumber].
  rewrite gt_of_Z, negb_true_iff. intros He H.
  split.
  - destruct s; [discriminate He | ]. unfold Str.len. simpl String.length. lia.
  - injection H as H. apply Z.ltb_ge in H. exact H.
Qed.

(** A field that is a string or missing and that the validator accepts
    once sanitised is a stored text. *)
Lemma validateTitle_stored (xss : string -> string) (v : value) :
  text_or_missing v ->
  validateTitle (sanitizeInput xss v) = Ok None ->
  stored_text xss 255 (sanitizeInput xss v).
Proof.
  unfold validateTitle. intros Hv.
  destruct (Js.truthy (sanitizeInput xss v)) eqn:T; cbn [negb];
    [ | discriminate].
  intros H.
  destruct v; cbn [sanitizeInput] in *;
    try (destruct Hv as [Hv | Hv]; [discriminate Hv | congruence]).
  exists (xss (Str.trim s)), s. split; [reflexivity | split; [reflexivity | ]].
  apply valid_length; [exact T | ].
  destruct (Js.get_length (VStr (xss (Str.trim s)))) as [len | ];
    cbn [bind] in *; [ | discriminate H].
  destruct (Js.gt_number len 255) as [[ | ] | ]; cbn [bind] in *;
    try discriminate H; reflexivity.
Qed.

Lemma validateContent_stored (xss : string -> string) (v : value) :
  text_or_missing v ->
  validateContent (sanitizeInput xss v) = Ok None ->
  stored_text xss 50000 (sanitizeInput xss v).
Proof.
  unfold validateContent. intros Hv.
  destruct (Js.truthy (sanitizeInput xss v)) eqn:T; cbn [negb];
    [ | discriminate].
  intros H.
  destruct v; cbn [sanitizeInput] in *;
    try (destruct Hv as [Hv | Hv]; [discriminate Hv | congruence]).
  exists (xss (Str.trim s)), s. split; [reflexivity | split; [reflexivity | ]].
  apply valid_length; [exact T | ].
  destruct (Js.get_length (VStr (xss (Str.trim s)))) as [len | ];
    cbn [bind] in *; [ | discriminate H].
  destruct (Js.gt_number len 50000) as [[ | ] | ]; cbn [bind] in *;
    try discriminate H; reflexivity.
Qed.

(** A statement whose texts are stored texts keeps the table so. *)
Lemma query_keeps_rows_ok
  (xss : string -> string) (now : Z) (q : query) (st : Store) :
  match q with
  | InsertNotice t c _ | UpdateNotice t c _ _ =>
      stored_text xss 255 t /\ stored_text xss 50000 c
  | _ => True
  end ->
  Forall (row_ok xss) (rows st) ->
  Forall (row_ok xss) (rows (snd (Db.query now q st))).
Proof.
  intros Hq Hr. rewrite query_eq. cbn [snd rows].
  destruct q; cbn [Db.run fst snd];
    repeat match goal with
           | |- context [match ?c with _ => _ end] => destruct c
           end; cbn [fst snd]; try exact Hr.
  - apply Forall_app. split; [exact Hr | ].
    constructor; [ | constructor]. exact Hq.
  - apply Forall_update_where; [ | exact Hr]. intros r _. exact Hq.
  - apply Forall_update_where; [ | exact Hr]. intros r H. exact H.
  - now apply Forall_filter.
  - now apply Forall_filter.
Qed.

Lemma handle_keeps_rows_ok
  (xss : string -> string) (now : Z) (req : request) (st : Store) :
  textual req ->
  Forall (row_ok xss) (rows st) ->
  Forall (row_ok xss) (rows (snd (handle xss now req st))).
Proof.
  intros Ht Hr.
  destruct req as [page_q size_q status_q | id | body | id body | id | id | ids];
    cbn [handle textual] in *.
  - now rewrite (proj1 (list_notices_rows now page_q size_q status_q st)).
  - unfold get_notice. destruct (validateId id); [exact Hr | ].
    pose proof (query_keeps_rows_ok xss now
                  (SelectById (NumStr.StringToNumber id)) st I Hr) as H.
    now destruct (Db.query now _ st) as [[[ | | [ | ] | | ] | ] ?].
  - destruct Ht as [T1 T2]. unfold create_notice.
    destruct (validateTitle _) as [[ | ] | ] eqn:Vt; try exact Hr.
    destruct (validateContent _) as [[ | ] | ] eqn:Vc; try exact Hr.
    pose proof (query_keeps_rows_ok xss now
                  (InsertNotice (sanitizeInput xss (body_title body))
                                (sanitizeInput xss (body_content body))
                                (delta_param (body_content_delta body))) st
                  (conj (validateTitle_stored xss _ T1 Vt)
                        (validateContent_stored xss _ T2 Vc)) Hr) as H.
    now destruct (Db.query now _ st) as [[[ | | | | ] | ] ?].
  - destruct Ht as [T1 T2]. unfold update_notice.
    destruct (validateId id); [exact Hr | ].
    destruct (validateTitle _) as [[ | ] | ] eqn:Vt; try exact Hr.
    destruct (validateContent _) as [[ | ] | ] eqn:Vc; try exact Hr.
    pose proof (query_keeps_rows_ok xss now
                  (UpdateNotice (sanitizeInput xss (body_title body))
                                (sanitizeInput xss (body_content body))
                                (delta_param (body_content_delta body))
                                (NumStr.StringToNumber id)) st
                  (conj (validateTitle_stored xss _ T1 Vt)
                        (validateContent_stored xss _ T2 Vc)) Hr) as H.
    now destruct (Db.query now _ st) as [[ | ] ?].
  - unfold publish_notice. destruct (validateId id); [exact Hr | ].
    pose proof (query_keeps_rows_ok xss now
                  (PublishNotice (NumStr.StringToNumber id)) st I Hr) as H.
    now destruct (Db.query now _ st) as [[ | ] ?].
  - unfold delete_notice. destruct (validateId id); [exact Hr | ].
    pose proof (query_keeps_rows_ok xss now
                  (DeleteNotice (NumStr.StringToNumber id)) st I Hr) as H.
    now destruct (Db.query now _ st) as [[ | ] ?].
  - unfold batch_delete.
    destruct (if Js.truthy ids then ids else VArr []) as [ | | | | | [ | x items] | ];
      try exact Hr.
    destruct (safe_ids _) as [safeIds | ]; [ | exact Hr].
    destruct (_ =? _)%nat; [exact Hr | ]. destruct (_ <? _)%nat; [exact Hr | ].
    pose proof (query_keeps_rows_ok xss now (DeleteIn safeIds) st I Hr) as H.
    now destruct (Db.query now _ st) as [[ | ] ?].
Qed.

(** X14: let every title and content of the table be a stored text: a
    string that the filter returned for a trimmed text, not empty, of at
    most 255 characters for a title and 50000 for a content.  Then this
    is still so after any sequence of requests whose titles and contents
    are strings (or missing): from such requests no handler writes a text
    that was not sanitised and validated.  (A title that is not a string
    is not passed through the filter.) *)
Theorem stored_texts_stay_checked
  (xss : string -> string) (reqs : list (Z * request)) (st : Store) :
  Forall (fun p => textual (snd p)) reqs ->
  Forall (row_ok xss) (rows st) ->
  Forall (row_ok xss) (rows (serve xss reqs st)).
Proof.
  revert st. induction reqs as [ | [now r] reqs IH ]; intros st Ht H; simpl;
    [exact H | ].
  inversion Ht as [ | p l Hp Hl ]; subst.
  apply IH; [exact Hl | ]. now apply handle_keeps_rows_ok.
Qed.

Lemma sample_rows_ok : Forall (row_ok xss_text) (rows sample_store).
Proof.
  repeat constructor; cbn.
  - exists "first", "first". repeat split; cbn; lia.
  - exists "one", "one". repeat split; cbn; lia.
  - exists "second", "second". repeat split; cbn; lia.
  - exists "two", "two". repeat split; cbn; lia.
  - exists "third", "third". repeat split; cbn; lia.
  - exists "three", "three". repeat split; cbn; lia.
Defined.

Lemma stored_texts_stay_checked_witness :
  Forall (row_ok xss_text)
         (rows (serve xss_text
                      [(10, Create (mkBody (VStr " <b>new</b> ") (VStr "text") None));
                       (11, Update "1" (mkBody (VStr "changed") (VStr "x") None));
                       (12, Publish "3")]
                      sample_store)).
Proof.
  refine (stored_texts_stay_checked xss_text _ sample_store _ sample_rows_ok).
  repeat constructor.
Defined.

Example stored_after_requests :
  map (fun r => (row_id r, row_title r, row_status r))
      (rows (serve xss_text
                   [(10, Create (mkBody (VStr " <b>new</b> ") (VStr "text") None));
                    (11, Update "1" (mkBody (VStr "changed") (VStr "x") None));
                    (12, Publish "3")]
                   sample_store))
  = [(1, VStr "changed", draft); (2, VStr "second", published);
     (3, VStr "third", published); (4, VStr "&lt;b&gt;new&lt;/b&gt;", draft)].
Proof. vm_compute. reflexivity. Qed.



(* ------------------------------------------------------------------ *)
(** ** The pages of the list *)

Lemma to_Z_at_most (n : number) (z k : Z) :
  Num.to_Z n = Some z -> Num.gt n (Num.of_Z k) = false -> z <= k.
Proof.
  intros H G. apply to_Z_spec in H. destruct H as [q [-> Hq]].
  unfold Num.gt, Num.lt, Num.of_Z, Num.Qlt_bool in G.
  apply negb_false_iff, Qle_bool_iff in G.
  rewrite Hq in G. now rewrite <- Zle_Qle in G.
Qed.

Lemma row_count_spec (n : number) (k : nat) :
  Db.row_count n = Some k ->
  exists z, Num.to_Z n = Some z /\ 0 <= z /\ k = Z.to_nat z.
Proof.
  unfold Db.row_count. destruct (Num.to_Z n) as [z | ]; [ | discriminate].
  destruct (Z.leb_spec 0 z) as [L | L]; [ | discriminate].
  destruct (z <=? Db.max_row_count); [ | discriminate].
  intros E. injection E as <-. now exists z.
Qed.

Lemma In_firstn {A : Type} (n : nat) (l : list A) (x : A) :
  In x (firstn n l) -> In x l.
Proof.
  intros H. rewrite <- (firstn_skipn n l). apply in_or_app. now left.
Qed.

Lemma In_skipn {A : Type} (n : nat) (l : list A) (x : A) :
  In x (skipn n l) -> In x l.
Proof.
  intros H. rewrite <- (firstn_skipn n l). apply in_or_app. now right.
Qed.

(** X16: whatever the parameters, when the list answers success its rows
    are at most 100 and at most the total, the total is the number of
    rows of the table that match the status filter, and each row of the
    answer is a row of the table that matches the filter. *)
Theorem list_answer_is_bounded
  (now : Z) (page_q size_q status_q : option string) (st : Store)
  (l : list Summary) (total : Z) (page size : number) :
  fst (list_notices now page_q size_q status_q st)
  = ok (DataList l total page size) ->
  (List.length l <= 100)%nat
  /\ Z.of_nat (List.length l) <= total
  /\ total
     = Z.of_nat (List.length
         (filter (matches_status
                    (Str.trim (match status_q with Some s => s | None => "" end)))
                 (rows st)))
  /\ forall s, In s l ->
       exists r, In r (rows st) /\ s = summary r
                 /\ matches_status
                      (Str.trim (match status_q with Some s => s | None => "" end))
                      r = true.
Proof.
  unfold list_notices.
  set (status := Str.trim (match status_q with Some s => s | None => "" end)).
  destruct (_ || _ || _) eqn:E1; [discriminate | ].
  destruct (_ && _) eqn:E2; [discriminate | ].
  apply orb_false_iff in E1. destruct E1 as [_ E3].
  rewrite !query_eq. cbn [Db.run fst snd rows next_id].
  destruct (Db.row_count (query_number size_q 10)) as [k | ] eqn:Hk;
    [ | discriminate].
  destruct (Db.row_count (Num.mul _ _)) as [o | ]; [ | discriminate].
  cbn [fst snd rows]. unfold Db.count. rewrite !where_status_matches.
  intros Hans. injection Hans as <- <- _ _.
  apply row_count_spec in Hk. destruct Hk as [z [Hz [Hz0 ->]]].
  pose proof (to_Z_at_most _ z 100 Hz E3) as Hle.
  set (sorted := Db.order_by_created_desc (filter (matches_status status) (rows st))).
  assert (Hlen : (List.length (firstn (Z.to_nat z) (skipn o sorted))
                  <= List.length (filter (matches_status status) (rows st)))%nat).
  { rewrite <- (Permutation_length
                  (order_by_created_desc_perm (filter (matches_status status) (rows st)))).
    fold sorted. rewrite length_firstn, length_skipn. lia. }
  rewrite length_map. repeat split.
  - pose proof (firstn_le_length (Z.to_nat z) (skipn o sorted)). lia.
  - lia.
  - intros s Hs. apply in_map_iff in Hs. destruct Hs as [r [<- Hr]].
    exists r. apply In_firstn, In_skipn in Hr.
    apply (Permutation_in _ (order_by_created_desc_perm _)) in Hr.
    apply filter_In in Hr. tauto.
Qed.

Lemma list_answer_is_bounded_witness :
  (List.length (map summary (rev (rows sample_store))) <= 100)%nat.
Proof.
  exact (proj1 (list_answer_is_bounded 0 None (Some "100") None sample_store
                  (map summary (rev (rows sample_store))) 3
                  (Num.of_Z 1) (Num.of_Z 100) eq_refl)).
Defined.




Example first_two_pages :
  map sum_id
      (listed (fst (list_notices 0 (Some "1") (Some "1") None sample_store))
       ++ listed (fst (list_notices 1 (Some "2") (Some "1") None sample_store)))
  = [3; 2].
Proof. vm_compute. reflexivity. Qed.

(* ------------------------------------------------------------------ *)
(** ** The upload: stored names and the content directory *)

Lemma plain_not_slash (l : list ascii) :
  forallb Path.plain l = true ->
  forallb (fun c => negb (Path.is_slash c)) l = true.
Proof. intros H. now apply forallb_plain in H. Qed.

Lemma extension_no_slash (p : string) :
  forallb (fun c => negb (Path.is_slash c))
          (list_ascii_of_string (Str.toLowerCase (Path.extname p))) = true.
Proof.
  destruct (extname_shape p) as [-> | [body [Hb ->]]]; [reflexivity | ].
  rewrite toLowerCase_list, list_ascii_of_string_of_list_ascii.
  cbn [map forallb].
  replace (Path.is_slash (Str.lower_char ".")) with false by reflexivity.
  cbn [negb andb]. apply plain_not_slash. now apply forallb_plain_lower.
Qed.

(** X18: the name under which an upload is stored never holds a slash,
    whatever the original name of the file: the stem is the timestamp, an
    underscore and the hexadecimal token, and the extension is taken after
    the last slash of the original name.  The stored file is always
    directly inside the content directory. *)
Theorem stored_name_has_no_slash (env : UploadEnv) (f : File) :
  forallb (fun c => negb (Path.is_slash c))
          (list_ascii_of_string (filename env f)) = true.
Proof.
  unfold filename. rewrite !list_of_append, !forallb_app.
  rewrite (plain_not_slash _ (Z_to_string_plain (date_now env))).
  rewrite (plain_not_slash _ (random_token_plain (random_digits env))).
  rewrite extension_no_slash. reflexivity.
Qed.

Example stored_name_of_a_path :
  filename (mkUploadEnv 1700000000000 [10; 3; 15] "h")
           (mkFile "../../etc/passwd.PNG" 10)
  = "1700000000000_a3f.png".
Proof. vm_compute. reflexivity. Qed.

Lemma upload_recheck (env : UploadEnv) (f : File) :
  allowedFileTypes (Str.toLowerCase (Path.extname (originalname f))) = true ->
  allowedFileTypes (Str.toLowerCase (Path.extname (filename env f))) = true.
Proof.
  intros Ha.
  destruct (extname_shape (originalname f)) as [E | [body [Hb E]]].
  - rewrite E in Ha. discriminate Ha.
  - rewrite (filename_extension env f body Hb E). now rewrite toLowerCase_idem.
Qed.

(** X19: an upload never removes a file of the content directory and adds
    at most one: whatever the request, the directory after it is the
    directory before it, or the directory before it with the stored name
    in front.  The file is added exactly when the answer is success, and
    the URL of the answer is then made of the [Host] header and the
    stored name. *)
Theorem upload_only_adds
  (env : UploadEnv) (file : option File) (fs : list string) :
  (snd (upload env file fs) = fs
   /\ http_status (fst (upload env file fs)) <> 200)
  \/ exists f,
       file = Some f
       /\ upload env file fs
          = (ok (DataUrl ("http://" ++ host env ++ "/uploads/" ++ filename env f)),
             filename env f :: fs).
Proof.
  unfold upload. destruct file as [f | ]; [ | left; split; [reflexivity | discriminate]].
  unfold fileFilter, destination.
  destruct (allowedFileTypes (Str.toLowerCase (Path.extname (originalname f))))
    eqn:Ha; cbn [negb]; [ | left; split; [reflexivity | discriminate]].
  destruct (fileSize_limit <? size f);
    [left; split; [reflexivity | discriminate] | ].
  rewrite (upload_recheck env f Ha). cbn [negb].
  right. exists f. split; reflexivity.
Qed.

(** X20: a file whose extension, lower-cased, is one of [.jpeg], [.jpg],
    [.png], [.gif] and whose size is at most 5 MB is accepted whatever the
    case of its name: the upload answers success and the stored name, kept
    in the directory, ends with the lower-cased extension. *)
Theorem listed_extension_is_stored
  (env : UploadEnv) (f : File) (fs : list string) :
  extension_allowed (originalname f) = true ->
  size f <= fileSize_limit ->
  upload env (Some f) fs
  = (ok (DataUrl ("http://" ++ host env ++ "/uploads/" ++ filename env f)),
     filename env f :: fs)
  /\ Path.extname (filename env f)
     = Str.toLowerCase (Path.extname (originalname f))
  /\ In (Path.extname (filename env f)) [".jpeg"; ".jpg"; ".png"; ".gif"].
Proof.
  intros Hx Hs.
  assert (Hin : In (Str.toLowerCase (Path.extname (originalname f)))
                   [".jpeg"; ".jpg"; ".png"; ".gif"]).
  { unfold extension_allowed in Hx. apply existsb_exists in Hx.
    destruct Hx as [e [He Hq]]. apply String.eqb_eq in Hq. now rewrite Hq. }
  assert (Ha : allowedFileTypes
                 (Str.toLowerCase (Path.extname (originalname f))) = true).
  { destruct Hin as [<- | [<- | [<- | [<- | []]]]]; reflexivity. }
  assert (He : Path.extname (filename env f)
               = Str.toLowerCase (Path.extname (originalname f))).
  { destruct (extname_shape (originalname f)) as [E | [body [Hb E]]].
    - rewrite E in Ha. discriminate Ha.
    - now apply (filename_extension env f body). }
  split; [ | split; [exact He | now rewrite He]].
  unfold upload, fileFilter, destination. rewrite Ha. cbn [negb].
  destruct (Z.ltb_spec fileSize_limit (size f)); [lia | ].
  rewrite (upload_recheck env f Ha). reflexivity.
Qed.

Lemma listed_extension_is_stored_witness :
  upload (mkUploadEnv 1700000000000 [10; 3; 15] "127.0.0.1:3000")
         (Some (mkFile "Holiday.JPeG" 2048)) ["old.png"]
  = (ok (DataUrl "http://127.0.0.1:3000/uploads/1700000000000_a3f.jpeg"),
     ["1700000000000_a3f.jpeg"; "old.png"]).
Proof.
  refine (proj1 (listed_extension_is_stored
                   (mkUploadEnv 1700000000000 [10; 3; 15] "127.0.0.1:3000")
                   (mkFile "Holiday.JPeG" 2048) ["old.png"] eq_refl _)).
  vm_compute. discriminate.
Defined.
